(** * SwapRouter: compiling trades into router calls

    A shallow embedding of [src/swapRouter.ts].  The class [SwapRouter] is
    static, so each of its methods is a function here.  A JavaScript
    exception is a value [Err e] of an error monad, an optional field is an
    [option], and the array [calldatas] that the methods push to is a list
    that grows by appending.

    The calls the router encodes are kept in the form they have just before
    the ABI encoder sees them: a function name with its ordered arguments, or
    the name of the helper with the arguments it is given.  An exception
    thrown inside one of those helpers, which are defined in other files, is
    not modelled: what is proved of a call list is proved of the runs that
    return. *)

From Stdlib Require Import ZArith List String Bool Lia HexString DecimalString.
Import ListNotations.
Open Scope string_scope.
Open Scope list_scope.
Open Scope Z_scope.

(** ** Errors and the error monad *)

(** The messages of the [invariant] calls of the file, the [TypeError] of
    JavaScript, and whatever an SDK call throws. *)
Inductive Error : Type :=
| UNSUPPORTED_PROTOCOL
| TOKEN_IN_DIFF
| TOKEN_OUT_DIFF
| TRADE_TYPE_DIFF
| NON_TOKEN_PERMIT
| NON_TOKEN_PERMIT_OUTPUT
| TypeError
| SdkError (msg : string).

Inductive Result (A : Type) : Type :=
| Ok (a : A)
| Err (e : Error).
Arguments Ok {A} a.
Arguments Err {A} e.

Definition bind {A B : Type} (m : Result A) (k : A -> Result B) : Result B :=
  match m with
  | Ok a => k a
  | Err e => Err e
  end.

Notation "x <- m ;; k" := (bind m (fun x => k))
  (at level 61, m at next level, right associativity).
Notation "m ;;; k" := (bind m (fun _ => k))
  (at level 61, right associativity).

(** [!!value] on an optional object. *)
Definition truthy {A : Type} (value : option A) : bool :=
  match value with Some _ => true | None => false end.

(** [invariant(condition, message)] of tiny-invariant. *)
Definition invariant (condition : bool) (message : Error) : Result unit :=
  if condition then Ok tt else Err message.

(** A loop whose body may throw: the first exception ends it. *)
Fixpoint mapM {A B : Type} (f : A -> Result B) (l : list A) : Result (list B) :=
  match l with
  | [] => Ok []
  | a :: l' => b <- f a ;; bs <- mapM f l' ;; Ok (b :: bs)
  end.

(** [array.reduce(f, init)] with a callback that may throw. *)
Fixpoint reduceM {A B : Type} (f : B -> A -> Result B) (l : list A) (init : B)
  : Result B :=
  match l with
  | [] => Ok init
  | a :: l' => b <- f init a ;; reduceM f l' b
  end.

(** ** Data of the SDKs *)

Inductive TradeType : Type := EXACT_INPUT | EXACT_OUTPUT.

Definition TradeType_eqb (a b : TradeType) : bool :=
  match a, b with
  | EXACT_INPUT, EXACT_INPUT | EXACT_OUTPUT, EXACT_OUTPUT => true
  | _, _ => false
  end.

Record Token : Type := { token_chainId : Z; address : string }.

(** A currency is the native asset of a chain or a token. *)
Inductive Currency : Type :=
| NativeCurrency (chain : Z)
| TokenCurrency (t : Token).

Definition isNative (c : Currency) : bool :=
  match c with NativeCurrency _ => true | TokenCurrency _ => false end.

Definition isToken (c : Currency) : bool := negb (isNative c).

Definition Token_eqb (a b : Token) : bool :=
  (token_chainId a =? token_chainId b) && String.eqb (address a) (address b).

(** [currency.equals(other)]. *)
Definition equals (a b : Currency) : bool :=
  match a, b with
  | NativeCurrency x, NativeCurrency y => x =? y
  | TokenCurrency s, TokenCurrency t => Token_eqb s t
  | _, _ => false
  end.

(** Modelled from the spec: [Percent] is declared in the core SDK; the spec
    gives it as a rational with a numerator and a denominator. *)
Record Percent : Type := { numerator : Z; denominator : Z }.

(** [a.greaterThan(b)] on fractions, by cross multiplication. *)
Definition Percent_greaterThan (a b : Percent) : bool :=
  numerator b * denominator a <? numerator a * denominator b.

(** Modelled from the spec: [CurrencyAmount] is declared in the core SDK; the
    spec gives it as a currency with an integer magnitude.  The magnitude is
    what [.quotient] reads. *)
Record CurrencyAmount : Type := { currency : Currency; quotient : Z }.

Definition fromRawAmount (c : Currency) (raw : Z) : CurrencyAmount :=
  {| currency := c; quotient := raw |}.

(** [a.add(b)] and [a.subtract(b)]: the SDK refuses operands of different
    currencies; the result may be negative. *)
Definition add (a b : CurrencyAmount) : Result CurrencyAmount :=
  invariant (equals (currency a) (currency b)) (SdkError "CURRENCY") ;;;
  Ok (fromRawAmount (currency a) (quotient a + quotient b)).

Definition subtract (a b : CurrencyAmount) : Result CurrencyAmount :=
  invariant (equals (currency a) (currency b)) (SdkError "CURRENCY") ;;;
  Ok (fromRawAmount (currency a) (quotient a - quotient b)).

Definition greaterThan (a b : CurrencyAmount) : bool :=
  quotient b <? quotient a.

(** The route held by a trade object or by a swap of an aggregate trade:
    its two ends, the tokens along it, its chain, and the protocol tag found
    on it at run time.  The route classes of [entities/route] set the tag;
    a route of a protocol SDK used as it is has none. *)
Record Route : Type := {
  protocol : option string;
  input : Currency;
  output : Currency;
  path : list Token;
  chainId : Z
}.

(** Modelled from the spec: the enum of [entities/protocol], with the three
    tags the spec names. *)
Module Protocol.
Definition V2 : string := "V2".
Definition V3 : string := "V3".
Definition MIXED : string := "MIXED".
End Protocol.

(** The classes a single-protocol trade object can be an instance of.  A V3
    or mixed trade has [swaps]; only their number is read. *)
Inductive TradeClass : Type :=
| V2Trade
| V3Trade (swaps_length : nat)
| MixedRouteTrade (swaps_length : nat).

Record ProtocolTrade : Type := {
  class : TradeClass;
  route : Route;
  inputAmount : CurrencyAmount;
  outputAmount : CurrencyAmount;
  tradeType : TradeType;
  priceImpact : Percent
}.

(** One entry of [swaps] of an aggregate trade. *)
Record Swap : Type := {
  swap_route : Route;
  swap_inputAmount : CurrencyAmount;
  swap_outputAmount : CurrencyAmount
}.

(** Modelled from the spec: the aggregate trade of [entities/trade], an
    ordered list of swaps with one trade type, and its own price impact. *)
Record Trade : Type := {
  swaps : list Swap;
  trade_tradeType : TradeType;
  trade_priceImpact : Percent
}.

(** [AnyTradeType]: an aggregate trade, one trade object, or an array. *)
Inductive AnyTradeType : Type :=
| Aggregate (t : Trade)
| Single (t : ProtocolTrade)
| TradeArray (ts : list ProtocolTrade).

(** ** Options *)

Inductive Validation : Type :=
| Deadline (d : Z)
| PreviousBlockhash (h : string).

Inductive PermitOptions : Type :=
| StandardPermitArguments (v : Z) (r s : string) (amount deadline : Z)
| AllowedPermitArguments (v : Z) (r s : string) (nonce expiry : Z).

Record FeeOptions : Type := { fee_fee : Percent; fee_recipient : string }.

Record SwapOptions : Type := {
  slippageTolerance : Percent;
  recipient : option string;
  deadlineOrPreviousBlockhash : option Validation;
  inputTokenPermit : option PermitOptions;
  fee : option FeeOptions
}.

Record SwapAndAddOptions : Type := {
  swapOptions :> SwapOptions;
  outputTokenPermit : option PermitOptions
}.

(** ** Encoded calls *)

(** An argument handed to [encodeFunctionData]. *)
Inductive Arg : Type :=
| ArgString (s : string)
| ArgNumber (n : Z)
| ArgArray (l : list string)
| ArgValidation (v : option Validation).

Inductive ApprovalTypes : Type :=
| NOT_REQUIRED
| MAX
| MAX_MINUS_ONE
| ZERO_THEN_MAX
| ZERO_THEN_MAX_MINUS_ONE.

Definition ApprovalTypes_eqb (a b : ApprovalTypes) : bool :=
  match a, b with
  | NOT_REQUIRED, NOT_REQUIRED | MAX, MAX | MAX_MINUS_ONE, MAX_MINUS_ONE
  | ZERO_THEN_MAX, ZERO_THEN_MAX
  | ZERO_THEN_MAX_MINUS_ONE, ZERO_THEN_MAX_MINUS_ONE => true
  | _, _ => false
  end.

Inductive CondensedAddLiquidityOptions : Type :=
| MintOptions (recipient : string)
| IncreaseOptions (tokenId : Z).

Record Pool : Type := { token0 : Token; token1 : Token }.

Record Position : Type := {
  pool : Pool;
  tickLower : Z;
  tickUpper : Z;
  amount0 : Z;
  amount1 : Z;
  mintAmounts : Z * Z
}.

(** The argument of [Position.fromAmounts]. *)
Record FromAmounts : Type := {
  fa_pool : Pool;
  fa_tickLower : Z;
  fa_tickUpper : Z;
  fa_amount0 : Z;
  fa_amount1 : Z;
  fa_useFullPrecision : bool
}.

(** One entry of [calldatas], named after the encoder that produces it. *)
Inductive Call : Type :=
| encodeFunctionData (name : string) (args : list Arg)
| encodePermit (c : Currency) (p : PermitOptions)
| encodeUnwrapWETH9 (amountMinimum : Z) (recipient : option string)
    (f : option FeeOptions)
| encodeSweepToken (t : option Token) (amountMinimum : Z)
    (recipient : option string) (f : option FeeOptions)
| encodeRefundETH
| encodeWrapETH (amount : Z)
| encodePull (t : option Token) (amount : Z)
| encodeApprove (t : option Token) (a : ApprovalTypes)
| encodeAddLiquidity (p : Position) (minimalPosition : FromAmounts)
    (o : CondensedAddLiquidityOptions) (slippage : Percent).

Record MethodParameters : Type := {
  calldata : option Call;
  value : string
}.

(** ** Services of the SDKs

    What the file calls and does not define: the slippage-adjusted amounts
    of a trade object, the pricing done by the constructor of a V2 trade,
    address validation, number formatting, the table of wrapped native
    tokens, and the two recipient constants of [constants]. *)
Class Sdk : Type := {
  trade_maximumAmountIn : ProtocolTrade -> Percent -> Result CurrencyAmount;
  trade_minimumAmountOut : ProtocolTrade -> Percent -> Result CurrencyAmount;
  V2Trade_amounts :
    Route -> CurrencyAmount -> TradeType ->
    Result (CurrencyAmount * CurrencyAmount * Percent);
  validateAndParseAddress : string -> Result string;
  toHex : Z -> string;
  toString : Z -> string;
  WETH9 : Z -> option Token;
  ADDRESS_THIS : string;
  MSG_SENDER : string
}.

Definition ZERO : Z := 0.

Definition REFUND_ETH_PRICE_IMPACT_THRESHOLD : Percent :=
  {| numerator := 50; denominator := 100 |}.

Section SwapRouter.

Context {sdk : Sdk}.

(** [new V2Trade(route, amount, tradeType)]: the object is a V2 trade on
    the given route with the given trade type; its amounts and price impact
    come from the pricing of the V2 SDK. *)
Definition V2Trade_new (rt : Route) (amount : CurrencyAmount) (tt : TradeType)
  : Result ProtocolTrade :=
  priced <- V2Trade_amounts rt amount tt ;;
  let '(amountIn, amountOut, impact) := priced in
  Ok {| class := V2Trade; route := rt; inputAmount := amountIn;
        outputAmount := amountOut; tradeType := tt; priceImpact := impact |}.

(** [currency.wrapped]: a token is its own wrapped form, the native asset
    of a chain is looked up in [WETH9]. *)
Definition wrapped (c : Currency) : Result Token :=
  match c with
  | TokenCurrency t => Ok t
  | NativeCurrency chain =>
      match WETH9 chain with
      | Some w => Ok w
      | None => Err (SdkError "WRAPPED")
      end
  end.

(** [amount.wrapped]. *)
Definition amount_wrapped (a : CurrencyAmount) : Result CurrencyAmount :=
  if isToken (currency a) then Ok a
  else w <- wrapped (currency a) ;;
       Ok (fromRawAmount (TokenCurrency w) (quotient a)).

(** *** encodeV2Swap *)

(** The recipient of a leg: the router itself when it must hold the funds,
    else the validated recipient of the options, else the sender. *)
Definition swapRecipient (options : SwapOptions) (routerMustCustody : bool)
  : Result string :=
  if routerMustCustody then Ok ADDRESS_THIS
  else match recipient options with
       | None => Ok MSG_SENDER
       | Some r => validateAndParseAddress r
       end.

Definition encodeV2Swap (trade : ProtocolTrade) (options : SwapOptions)
    (routerMustCustody performAggregatedSlippageCheck : bool) : Result Call :=
  maxIn <- trade_maximumAmountIn trade (slippageTolerance options) ;;
  let amountIn := toHex (quotient maxIn) in
  minOut <- trade_minimumAmountOut trade (slippageTolerance options) ;;
  let amountOut := toHex (quotient minOut) in
  let path := map address (path (route trade)) in
  recipient <- swapRecipient options routerMustCustody ;;
  let minOutOrZero :=
    if performAggregatedSlippageCheck then ArgNumber 0 else ArgString amountOut in
  match tradeType trade with
  | EXACT_INPUT =>
      let exactInputParams :=
        [ArgString amountIn; minOutOrZero; ArgArray path; ArgString recipient;
         ArgValidation (deadlineOrPreviousBlockhash options)] in
      if isNative (currency (inputAmount trade)) then
        Ok (encodeFunctionData "swapExactETHForTokens"
              [minOutOrZero; ArgArray path; ArgString recipient;
               ArgValidation (deadlineOrPreviousBlockhash options)])
      else if isNative (currency (outputAmount trade)) then
        Ok (encodeFunctionData "swapExactTokensForETH" exactInputParams)
      else
        Ok (encodeFunctionData "swapExactTokensForTokens" exactInputParams)
  | EXACT_OUTPUT =>
      let exactOutputParams :=
        [ArgString amountOut; ArgString amountIn; ArgArray path;
         ArgString recipient;
         ArgValidation (deadlineOrPreviousBlockhash options)] in
      if isNative (currency (inputAmount trade)) then
        Ok (encodeFunctionData "swapETHForExactTokens" exactOutputParams)
      else if isNative (currency (outputAmount trade)) then
        Ok (encodeFunctionData "swapTokensForExactETH" exactOutputParams)
      else
        Ok (encodeFunctionData "swapTokensForExactTokens" exactOutputParams)
  end.

(** *** encodeSwaps *)

(** [protocol == tag]; a missing tag equals none. *)
Definition protocol_eq (found : option string) (tag : string) : bool :=
  match found with
  | Some p => String.eqb p tag
  | None => false
  end.

Definition supportedProtocol (s : Swap) : bool :=
  protocol_eq (protocol (swap_route s)) Protocol.V3
  || protocol_eq (protocol (swap_route s)) Protocol.V2
  || protocol_eq (protocol (swap_route s)) Protocol.MIXED.

(** The branch [trades instanceof Trade]: the protocol check, then one
    [new V2Trade] per swap, in order. *)
Definition unbundle (trades : Trade) : Result (list ProtocolTrade) :=
  invariant (forallb supportedProtocol (swaps trades)) UNSUPPORTED_PROTOCOL ;;;
  mapM (fun s =>
          V2Trade_new (swap_route s)
            (match trade_tradeType trades with
             | EXACT_INPUT => swap_inputAmount s
             | EXACT_OUTPUT => swap_outputAmount s
             end)
            (trade_tradeType trades))
       (swaps trades).

(** The array [trades] is rebound to: the unbundled aggregate, the array
    itself, or the one trade in an array. *)
Definition normalize (trades : AnyTradeType) : Result (list ProtocolTrade) :=
  match trades with
  | Aggregate t => unbundle t
  | Single t => Ok [t]
  | TradeArray ts => Ok ts
  end.

Definition isV2Trade (trade : ProtocolTrade) : bool :=
  match class trade with V2Trade => true | _ => false end.

(** [trade instanceof V3Trade || trade instanceof MixedRouteTrade ?
    trade.swaps.length : 1]. *)
Definition segments (trade : ProtocolTrade) : nat :=
  match class trade with
  | V2Trade => 1
  | V3Trade n | MixedRouteTrade n => n
  end.

Definition numberOfTrades (trades : list ProtocolTrade) : nat :=
  fold_left (fun n trade => (n + segments trade)%nat) trades 0%nat.

(** The flag for the aggregated slippage check: more than two exact-input
    trades. *)
Definition performAggregatedSlippageCheck (sampleTrade : ProtocolTrade)
    (trades : list ProtocolTrade) : bool :=
  TradeType_eqb (tradeType sampleTrade) EXACT_INPUT
  && (2 <? numberOfTrades trades)%nat.

(** The loop over [trades] that pushes one call per V2 trade object. *)
Fixpoint encodeTrades (trades : list ProtocolTrade) (options : SwapOptions)
    (routerMustCustody performAggregatedSlippageCheck : bool)
  : Result (list Call) :=
  match trades with
  | [] => Ok []
  | trade :: rest =>
      pushed <-
        (if isV2Trade trade then
           c <- encodeV2Swap trade options routerMustCustody
                  performAggregatedSlippageCheck ;;
           Ok [c]
         else Ok []) ;;
      more <- encodeTrades rest options routerMustCustody
                performAggregatedSlippageCheck ;;
      Ok (pushed ++ more)
  end.

Record EncodedSwaps : Type := {
  calldatas : list Call;
  sampleTrade : ProtocolTrade;
  routerMustCustody : bool;
  inputIsNative : bool;
  outputIsNative : bool;
  totalAmountIn : CurrencyAmount;
  minimumAmountOut : CurrencyAmount;
  quoteAmountOut : CurrencyAmount
}.

(** The body of [encodeSwaps] once [trades] is an array.  On an empty array
    the three [every] checks hold, [sampleTrade] is [undefined], and reading
    [sampleTrade.inputAmount] throws. *)
Definition encodeSwapsOf (trades : list ProtocolTrade) (options : SwapOptions)
    (isSwapAndAdd : bool) : Result EncodedSwaps :=
  match trades with
  | [] => Err TypeError
  | sampleTrade :: _ =>
      invariant
        (forallb (fun trade => equals (currency (inputAmount trade))
                                 (currency (inputAmount sampleTrade))) trades)
        TOKEN_IN_DIFF ;;;
      invariant
        (forallb (fun trade => equals (currency (outputAmount trade))
                                 (currency (outputAmount sampleTrade))) trades)
        TOKEN_OUT_DIFF ;;;
      invariant
        (forallb (fun trade => TradeType_eqb (tradeType trade)
                                 (tradeType sampleTrade)) trades)
        TRADE_TYPE_DIFF ;;;
      let inputIsNative := isNative (currency (inputAmount sampleTrade)) in
      let outputIsNative := isNative (currency (outputAmount sampleTrade)) in
      let performAggregatedSlippageCheck :=
        performAggregatedSlippageCheck sampleTrade trades in
      let routerMustCustody :=
        outputIsNative
        || truthy (fee options)
        || isSwapAndAdd
        || performAggregatedSlippageCheck in
      permit <-
        match inputTokenPermit options with
        | Some p =>
            invariant (isToken (currency (inputAmount sampleTrade)))
              NON_TOKEN_PERMIT ;;;
            Ok [encodePermit (currency (inputAmount sampleTrade)) p]
        | None => Ok []
        end ;;
      encoded <- encodeTrades trades options routerMustCustody
                   performAggregatedSlippageCheck ;;
      let ZERO_IN := fromRawAmount (currency (inputAmount sampleTrade)) 0 in
      let ZERO_OUT := fromRawAmount (currency (outputAmount sampleTrade)) 0 in
      minimumAmountOut <-
        reduceM (fun sum trade =>
                   m <- trade_minimumAmountOut trade (slippageTolerance options) ;;
                   add sum m)
          trades ZERO_OUT ;;
      quoteAmountOut <-
        reduceM (fun sum trade => add sum (outputAmount trade)) trades ZERO_OUT ;;
      totalAmountIn <-
        reduceM (fun sum trade =>
                   m <- trade_maximumAmountIn trade (slippageTolerance options) ;;
                   add sum m)
          trades ZERO_IN ;;
      Ok {| calldatas := permit ++ encoded;
            sampleTrade := sampleTrade;
            routerMustCustody := routerMustCustody;
            inputIsNative := inputIsNative;
            outputIsNative := outputIsNative;
            totalAmountIn := totalAmountIn;
            minimumAmountOut := minimumAmountOut;
            quoteAmountOut := quoteAmountOut |}
  end.

Definition encodeSwaps (trades : AnyTradeType) (options : SwapOptions)
    (isSwapAndAdd : bool) : Result EncodedSwaps :=
  trades <- normalize trades ;;
  encodeSwapsOf trades options isSwapAndAdd.

(** *** riskOfPartialFill *)

(** [!(trade instanceof V2Trade) &&
    trade.priceImpact.greaterThan(REFUND_ETH_PRICE_IMPACT_THRESHOLD)] on a
    trade object. *)
Definition v3TradeWithHighPriceImpact (trade : ProtocolTrade) : bool :=
  negb (isV2Trade trade)
  && Percent_greaterThan (priceImpact trade) REFUND_ETH_PRICE_IMPACT_THRESHOLD.

(** The argument is the one the caller passed, not the array [encodeSwaps]
    built: an aggregate trade is no V2 trade object and is judged by its own
    price impact. *)
Definition riskOfPartialFill (trades : AnyTradeType) : bool :=
  match trades with
  | TradeArray ts => existsb v3TradeWithHighPriceImpact ts
  | Single t => v3TradeWithHighPriceImpact t
  | Aggregate t =>
      Percent_greaterThan (trade_priceImpact t) REFUND_ETH_PRICE_IMPACT_THRESHOLD
  end.

(** *** swapCallParameters *)

(** The array [calldatas] as it stands at the [return]. *)
Definition swapCalldatas (trades : AnyTradeType) (options : SwapOptions)
    (es : EncodedSwaps) : Result (list Call) :=
  settle <-
    (if routerMustCustody es then
       if outputIsNative es then
         Ok [encodeUnwrapWETH9 (quotient (minimumAmountOut es))
               (recipient options) (fee options)]
       else
         w <- wrapped (currency (outputAmount (sampleTrade es))) ;;
         Ok [encodeSweepToken (Some w) (quotient (minimumAmountOut es))
               (recipient options) (fee options)]
     else Ok []) ;;
  let refund :=
    if inputIsNative es
       && (TradeType_eqb (tradeType (sampleTrade es)) EXACT_OUTPUT
           || riskOfPartialFill trades)
    then [encodeRefundETH] else [] in
  Ok (calldatas es ++ settle ++ refund).

Definition swapCallParameters (trades : AnyTradeType) (options : SwapOptions)
  : Result MethodParameters :=
  es <- encodeSwaps trades options false ;;
  calldatas <- swapCalldatas trades options es ;;
  Ok {| calldata := nth_error calldatas 0;
        value := toHex (if inputIsNative es then quotient (totalAmountIn es)
                        else ZERO) |}.

(** *** swapAndAddCallParameters *)

Definition getPositionAmounts (position : Position) (zeroForOne : bool)
  : CurrencyAmount * CurrencyAmount :=
  let '(amount0, amount1) := mintAmounts position in
  let currencyAmount0 :=
    fromRawAmount (TokenCurrency (token0 (pool position))) amount0 in
  let currencyAmount1 :=
    fromRawAmount (TokenCurrency (token1 (pool position))) amount1 in
  if zeroForOne then (currencyAmount0, currencyAmount1)
  else (currencyAmount1, currencyAmount0).

(** What [swapAndAddCallParameters] knows once [amountOutRemaining] is
    computed. *)
Record AddLiquidityContext : Type := {
  ctx_swaps : EncodedSwaps;
  ctx_permit : list Call;
  ctx_zeroForOne : bool;
  ctx_positionAmountIn : CurrencyAmount;
  ctx_positionAmountOut : CurrencyAmount;
  ctx_tokenIn : option Token;
  ctx_tokenOut : option Token;
  ctx_amountOutRemaining : CurrencyAmount
}.

(** The first half of the method, down to [amountOutRemaining]. *)
Definition swapAndAddPrepare (trades : AnyTradeType)
    (options : SwapAndAddOptions) (position : Position)
  : Result AddLiquidityContext :=
  es <- encodeSwaps trades options true ;;
  let totalAmountSwapped := totalAmountIn es in
  permit <-
    match outputTokenPermit options with
    | Some p =>
        invariant (isToken (currency (quoteAmountOut es)))
          NON_TOKEN_PERMIT_OUTPUT ;;;
        Ok [encodePermit (currency (quoteAmountOut es)) p]
    | None => Ok []
    end ;;
  let chainId := chainId (route (sampleTrade es)) in
  swappedToken <- wrapped (currency totalAmountSwapped) ;;
  let zeroForOne :=
    String.eqb (address (token0 (pool position))) (address swappedToken) in
  let '(positionAmountIn, positionAmountOut) :=
    getPositionAmounts position zeroForOne in
  tokenIn <-
    (if inputIsNative es then Ok (WETH9 chainId)
     else t <- wrapped (currency positionAmountIn) ;; Ok (Some t)) ;;
  tokenOut <-
    (if outputIsNative es then Ok (WETH9 chainId)
     else t <- wrapped (currency positionAmountOut) ;; Ok (Some t)) ;;
  quoteWrapped <- amount_wrapped (quoteAmountOut es) ;;
  amountOutRemaining <- subtract positionAmountOut quoteWrapped ;;
  Ok {| ctx_swaps := es;
        ctx_permit := permit;
        ctx_zeroForOne := zeroForOne;
        ctx_positionAmountIn := positionAmountIn;
        ctx_positionAmountOut := positionAmountOut;
        ctx_tokenIn := tokenIn;
        ctx_tokenOut := tokenOut;
        ctx_amountOutRemaining := amountOutRemaining |}.

(** The call that pulls in the part of the desired output the swap does not
    cover, if there is such a part. *)
Definition pullRemainingOutput (ctx : AddLiquidityContext) : list Call :=
  if greaterThan (ctx_amountOutRemaining ctx)
       (fromRawAmount (currency (ctx_positionAmountOut ctx)) 0)
  then [if outputIsNative (ctx_swaps ctx)
        then encodeWrapETH (quotient (ctx_amountOutRemaining ctx))
        else encodePull (ctx_tokenOut ctx)
               (quotient (ctx_amountOutRemaining ctx))]
  else [].

(** The calls pushed after that one, down to the two sweeps. *)
Definition depositCalls (ctx : AddLiquidityContext)
    (options : SwapAndAddOptions) (position : Position)
    (addLiquidityOptions : CondensedAddLiquidityOptions)
    (tokenInApprovalType tokenOutApprovalType : ApprovalTypes) : list Call :=
  let es := ctx_swaps ctx in
  let tokenIn := ctx_tokenIn ctx in
  let tokenOut := ctx_tokenOut ctx in
  let pullIn :=
    [if inputIsNative es
     then encodeWrapETH (quotient (ctx_positionAmountIn ctx))
     else encodePull tokenIn (quotient (ctx_positionAmountIn ctx))] in
  let approveIn :=
    if negb (ApprovalTypes_eqb tokenInApprovalType NOT_REQUIRED)
    then [encodeApprove tokenIn tokenInApprovalType] else [] in
  let approveOut :=
    if negb (ApprovalTypes_eqb tokenOutApprovalType NOT_REQUIRED)
    then [encodeApprove tokenOut tokenOutApprovalType] else [] in
  let minimalPosition :=
    {| fa_pool := pool position;
       fa_tickLower := tickLower position;
       fa_tickUpper := tickUpper position;
       fa_amount0 := if ctx_zeroForOne ctx then amount0 position
                     else quotient (minimumAmountOut es);
       fa_amount1 := if ctx_zeroForOne ctx then quotient (minimumAmountOut es)
                     else amount1 position;
       fa_useFullPrecision := false |} in
  let addLiquidity :=
    [encodeAddLiquidity position minimalPosition addLiquidityOptions
       (slippageTolerance options)] in
  let sweepIn :=
    [if inputIsNative es then encodeUnwrapWETH9 ZERO None None
     else encodeSweepToken tokenIn ZERO None None] in
  let sweepOut :=
    [if outputIsNative es then encodeUnwrapWETH9 ZERO None None
     else encodeSweepToken tokenOut ZERO None None] in
  pullIn ++ approveIn ++ approveOut ++ addLiquidity ++ sweepIn ++ sweepOut.

(** The value to attach. *)
Definition swapAndAddValue (ctx : AddLiquidityContext) : Result Z :=
  let es := ctx_swaps ctx in
  if inputIsNative es then
    swapped <- amount_wrapped (totalAmountIn es) ;;
    deposited <- amount_wrapped (ctx_positionAmountIn ctx) ;;
    total <- add swapped deposited ;;
    Ok (quotient total)
  else if outputIsNative es then Ok (quotient (ctx_amountOutRemaining ctx))
  else Ok ZERO.

(** What the method has computed at its [return]: the array [calldatas],
    the remaining output amount, and the value to attach. *)
Record SwapAndAdd : Type := {
  saa_calldatas : list Call;
  saa_amountOutRemaining : CurrencyAmount;
  saa_value : Z
}.

Definition swapAndAddAssemble (trades : AnyTradeType)
    (options : SwapAndAddOptions) (position : Position)
    (addLiquidityOptions : CondensedAddLiquidityOptions)
    (tokenInApprovalType tokenOutApprovalType : ApprovalTypes)
  : Result SwapAndAdd :=
  ctx <- swapAndAddPrepare trades options position ;;
  let calldatas :=
    calldatas (ctx_swaps ctx) ++ ctx_permit ctx ++ pullRemainingOutput ctx
    ++ depositCalls ctx options position addLiquidityOptions
         tokenInApprovalType tokenOutApprovalType in
  value <- swapAndAddValue ctx ;;
  Ok {| saa_calldatas := calldatas;
        saa_amountOutRemaining := ctx_amountOutRemaining ctx;
        saa_value := value |}.

Definition swapAndAddCallParameters (trades : AnyTradeType)
    (options : SwapAndAddOptions) (position : Position)
    (addLiquidityOptions : CondensedAddLiquidityOptions)
    (tokenInApprovalType tokenOutApprovalType : ApprovalTypes)
  : Result MethodParameters :=
  assembled <- swapAndAddAssemble trades options position addLiquidityOptions
                 tokenInApprovalType tokenOutApprovalType ;;
  Ok {| calldata := nth_error (saa_calldatas assembled) 0;
        value := toString (saa_value assembled) |}.

End SwapRouter.

(** ** A concrete SDK and concrete inputs

    A stand-in for the SDKs, used to run the router on examples: the
    slippage formulas of the trade classes, constant-product pricing with
    both reserves fixed for the V2 constructor, and the mainnet entry of the
    wrapped-native table. *)
Module Sample.

Definition reserve : Z := 1000000.

Definition maximumAmountIn (trade : ProtocolTrade) (tolerance : Percent)
  : Result CurrencyAmount :=
  invariant (0 <=? numerator tolerance * denominator tolerance)
    (SdkError "SLIPPAGE_TOLERANCE") ;;;
  match tradeType trade with
  | EXACT_INPUT => Ok (inputAmount trade)
  | EXACT_OUTPUT =>
      Ok (fromRawAmount (currency (inputAmount trade))
            (Z.quot ((denominator tolerance + numerator tolerance)
                     * quotient (inputAmount trade))
                    (denominator tolerance)))
  end.

Definition minimumAmountOut (trade : ProtocolTrade) (tolerance : Percent)
  : Result CurrencyAmount :=
  invariant (0 <=? numerator tolerance * denominator tolerance)
    (SdkError "SLIPPAGE_TOLERANCE") ;;;
  match tradeType trade with
  | EXACT_OUTPUT => Ok (outputAmount trade)
  | EXACT_INPUT =>
      Ok (fromRawAmount (currency (outputAmount trade))
            (Z.quot (denominator tolerance * quotient (outputAmount trade))
                    (denominator tolerance + numerator tolerance)))
  end.

(** Whether the route is of a class that has pairs: a route of the V3 or
    mixed route class has pools instead, and the V2 constructor's read of
    its pairs throws. *)
Definition hasPairs (rt : Route) : bool :=
  negb (protocol_eq (protocol rt) Protocol.V3
        || protocol_eq (protocol rt) Protocol.MIXED).

Definition amounts (rt : Route) (amount : CurrencyAmount) (tt : TradeType)
  : Result (CurrencyAmount * CurrencyAmount * Percent) :=
  invariant (hasPairs rt) TypeError ;;;
  match tt with
  | EXACT_INPUT =>
      invariant (equals (currency amount) (input rt)) (SdkError "INPUT") ;;;
      Ok (fromRawAmount (input rt) (quotient amount),
          fromRawAmount (output rt)
            (Z.quot (reserve * quotient amount) (reserve + quotient amount)),
          {| numerator := quotient amount;
             denominator := reserve + quotient amount |})
  | EXACT_OUTPUT =>
      invariant (equals (currency amount) (output rt)) (SdkError "OUTPUT") ;;;
      invariant (quotient amount <? reserve)
        (SdkError "INSUFFICIENT_RESERVES") ;;;
      let needed :=
        Z.quot (reserve * quotient amount) (reserve - quotient amount) + 1 in
      Ok (fromRawAmount (input rt) needed,
          fromRawAmount (output rt) (quotient amount),
          {| numerator := needed; denominator := reserve + needed |})
  end.

Definition hex (z : Z) : string :=
  let digits :=
    String.substring 2 (String.length (HexString.of_Z z) - 2)
      (HexString.of_Z z) in
  "0x" ++ (if Nat.odd (String.length digits) then "0" ++ digits else digits).

Definition decimal (z : Z) : string := NilZero.string_of_int (Z.to_int z).

Definition WETH : Token :=
  {| token_chainId := 1;
     address := "0xC02aaA39b223FE8D0A0e5C4F27eAD9083C756Cc2" |}.
Definition DAI : Token :=
  {| token_chainId := 1;
     address := "0x6B175474E89094C44Da98b954EedeAC495271d0F" |}.
Definition USDC : Token :=
  {| token_chainId := 1;
     address := "0xA0b86991c6218b36c1d19D4a2e9Eb0cE3606eB48" |}.
Definition ETHER : Currency := NativeCurrency 1.

#[export] Instance sdk : Sdk := {|
  trade_maximumAmountIn := maximumAmountIn;
  trade_minimumAmountOut := minimumAmountOut;
  V2Trade_amounts := amounts;
  validateAndParseAddress := fun a => Ok a;
  toHex := hex;
  toString := decimal;
  WETH9 := fun chain => if chain =? 1 then Some WETH else None;
  ADDRESS_THIS := "0x0000000000000000000000000000000000000002";
  MSG_SENDER := "0x0000000000000000000000000000000000000001"
|}.

Definition onePercent : Percent := {| numerator := 1; denominator := 100 |}.

Definition options : SwapOptions :=
  {| slippageTolerance := onePercent;
     recipient := None;
     deadlineOrPreviousBlockhash := Some (Deadline 1700000000);
     inputTokenPermit := None;
     fee := None |}.

Definition daiToUsdc : Route :=
  {| protocol := Some Protocol.V2;
     input := TokenCurrency DAI; output := TokenCurrency USDC;
     path := [DAI; USDC]; chainId := 1 |}.
Definition etherToDai : Route :=
  {| protocol := Some Protocol.V2;
     input := ETHER; output := TokenCurrency DAI;
     path := [WETH; DAI]; chainId := 1 |}.
Definition daiToEther : Route :=
  {| protocol := Some Protocol.V2;
     input := TokenCurrency DAI; output := ETHER;
     path := [DAI; WETH]; chainId := 1 |}.

(** The same routes as a V2 SDK gives them, without a tag, and with a tag
    the router does not know. *)
Definition daiToUsdcPlain : Route :=
  {| protocol := None;
     input := TokenCurrency DAI; output := TokenCurrency USDC;
     path := [DAI; USDC]; chainId := 1 |}.
Definition etherToDaiV4 : Route :=
  {| protocol := Some "V4";
     input := ETHER; output := TokenCurrency DAI;
     path := [WETH; DAI]; chainId := 1 |}.

(** A trade object of the given class on a route, at a price of one. *)
Definition tradeOn (c : TradeClass) (rt : Route) (tt : TradeType)
    (amount : Z) (impact : Percent) : ProtocolTrade :=
  {| class := c; route := rt;
     inputAmount := fromRawAmount (input rt) amount;
     outputAmount := fromRawAmount (output rt) amount;
     tradeType := tt; priceImpact := impact |}.

Definition noImpact : Percent := {| numerator := 0; denominator := 1 |}.
Definition sixtyPercent : Percent := {| numerator := 60; denominator := 100 |}.

Definition v2DaiToUsdc : ProtocolTrade :=
  tradeOn V2Trade daiToUsdc EXACT_INPUT 1000 noImpact.
Definition v3DaiToUsdc : ProtocolTrade :=
  tradeOn (V3Trade 1) daiToUsdc EXACT_INPUT 1000 noImpact.
Definition v2EtherToDai : ProtocolTrade :=
  tradeOn V2Trade etherToDai EXACT_INPUT 1000 noImpact.
Definition v2DaiToUsdcPlain : ProtocolTrade :=
  tradeOn V2Trade daiToUsdcPlain EXACT_INPUT 1000 noImpact.
Definition v2EtherToDaiV4 : ProtocolTrade :=
  tradeOn V2Trade etherToDaiV4 EXACT_INPUT 1000 noImpact.

(** An aggregate trade of one V2 swap, large against the reserves. *)
Definition aggregateEtherToDai : Trade :=
  {| swaps :=
       [{| swap_route := etherToDai;
           swap_inputAmount := fromRawAmount ETHER 1500000;
           swap_outputAmount := fromRawAmount (TokenCurrency DAI) 600000 |}];
     trade_tradeType := EXACT_INPUT;
     trade_priceImpact := sixtyPercent |}.

(** The same with a route tag the router does not know. *)
Definition aggregateV4 : Trade :=
  {| swaps :=
       [{| swap_route := etherToDaiV4;
           swap_inputAmount := fromRawAmount ETHER 1500000;
           swap_outputAmount := fromRawAmount (TokenCurrency DAI) 600000 |}];
     trade_tradeType := EXACT_INPUT;
     trade_priceImpact := sixtyPercent |}.

Definition position : Position :=
  {| pool := {| token0 := DAI; token1 := USDC |};
     tickLower := -60; tickUpper := 60;
     amount0 := 500; amount1 := 400;
     mintAmounts := (500, 400) |}.

Definition addOptions : SwapAndAddOptions :=
  {| swapOptions := options; outputTokenPermit := None |}.

(** A V3 trade object of three swaps. *)
Definition v3ThreeSwaps : ProtocolTrade :=
  tradeOn (V3Trade 3) daiToUsdc EXACT_INPUT 1000 noImpact.


(** Options for minting to a well-formed address. *)
Definition mintOptions : CondensedAddLiquidityOptions :=
  MintOptions "0x0000000000000000000000000000000000000003".

Definition v2DaiToEther : ProtocolTrade :=
  tradeOn V2Trade daiToEther EXACT_INPUT 1000 noImpact.

(** A position in the pool of DAI and wrapped ether. *)
Definition positionDaiWeth : Position :=
  {| pool := {| token0 := DAI; token1 := WETH |};
     tickLower := -60; tickUpper := 60;
     amount0 := 500; amount1 := 400;
     mintAmounts := (500, 400) |}.

Definition permit : PermitOptions :=
  StandardPermitArguments 27 "0x01" "0x02" 1000 1700000000.

Definition optionsWithPermit : SwapOptions :=
  {| slippageTolerance := onePercent;
     recipient := None;
     deadlineOrPreviousBlockhash := Some (Deadline 1700000000);
     inputTokenPermit := Some permit;
     fee := None |}.

Definition addOptionsWithPermit : SwapAndAddOptions :=
  {| swapOptions := options; outputTokenPermit := Some permit |}.

End Sample.

(** ** What an accepted input looks like

    Everything [encodeSwaps] has established when it returns [es] on the
    normalized array [legs]. *)
Record Accepted {sdk : Sdk} (trades : AnyTradeType) (options : SwapOptions)
    (isSwapAndAdd : bool) (es : EncodedSwaps) (legs : list ProtocolTrade)
    (permit encoded : list Call) : Prop := {
  acc_normalize : normalize trades = Ok legs;
  acc_sample : nth_error legs 0 = Some (sampleTrade es);
  acc_tokenIn :
    forallb (fun trade => equals (currency (inputAmount trade))
                            (currency (inputAmount (sampleTrade es)))) legs
    = true;
  acc_tokenOut :
    forallb (fun trade => equals (currency (outputAmount trade))
                            (currency (outputAmount (sampleTrade es)))) legs
    = true;
  acc_tradeType :
    forallb (fun trade => TradeType_eqb (tradeType trade)
                            (tradeType (sampleTrade es))) legs
    = true;
  acc_inputIsNative :
    inputIsNative es = isNative (currency (inputAmount (sampleTrade es)));
  acc_outputIsNative :
    outputIsNative es = isNative (currency (outputAmount (sampleTrade es)));
  acc_custody :
    routerMustCustody es
    = (outputIsNative es || truthy (fee options) || isSwapAndAdd
       || performAggregatedSlippageCheck (sampleTrade es) legs);
  acc_permit :
    match inputTokenPermit options with
    | Some p =>
        isToken (currency (inputAmount (sampleTrade es))) = true
        /\ permit = [encodePermit (currency (inputAmount (sampleTrade es))) p]
    | None => permit = []
    end;
  acc_encoded :
    encodeTrades legs options (routerMustCustody es)
      (performAggregatedSlippageCheck (sampleTrade es) legs) = Ok encoded;
  acc_calldatas : calldatas es = permit ++ encoded;
  acc_minimumAmountOut :
    reduceM (fun sum trade =>
               m <- trade_minimumAmountOut trade (slippageTolerance options) ;;
               add sum m)
      legs (fromRawAmount (currency (outputAmount (sampleTrade es))) 0)
    = Ok (minimumAmountOut es);
  acc_quoteAmountOut :
    reduceM (fun sum trade => add sum (outputAmount trade)) legs
      (fromRawAmount (currency (outputAmount (sampleTrade es))) 0)
    = Ok (quoteAmountOut es);
  acc_totalAmountIn :
    reduceM (fun sum trade =>
               m <- trade_maximumAmountIn trade (slippageTolerance options) ;;
               add sum m)
      legs (fromRawAmount (currency (inputAmount (sampleTrade es))) 0)
    = Ok (totalAmountIn es)
}.

Arguments acc_calldatas {_ _ _ _ _ _ _ _} _.
Arguments acc_custody {_ _ _ _ _ _ _ _} _.
Arguments acc_encoded {_ _ _ _ _ _ _ _} _.
Arguments acc_inputIsNative {_ _ _ _ _ _ _ _} _.
Arguments acc_minimumAmountOut {_ _ _ _ _ _ _ _} _.
Arguments acc_normalize {_ _ _ _ _ _ _ _} _.
Arguments acc_outputIsNative {_ _ _ _ _ _ _ _} _.
Arguments acc_permit {_ _ _ _ _ _ _ _} _.
Arguments acc_quoteAmountOut {_ _ _ _ _ _ _ _} _.
Arguments acc_sample {_ _ _ _ _ _ _ _} _.
Arguments acc_tokenIn {_ _ _ _ _ _ _ _} _.
Arguments acc_tokenOut {_ _ _ _ _ _ _ _} _.
Arguments acc_totalAmountIn {_ _ _ _ _ _ _ _} _.
Arguments acc_tradeType {_ _ _ _ _ _ _ _} _.

(** A call that moves funds into the router: a wrap of native value or a
    pull of a token. *)
Definition isPullOrWrap (c : Call) : bool :=
  match c with
  | encodeWrapETH _ | encodePull _ _ => true
  | _ => false
  end.

(** A call produced by the swap encoder or the permit encoder. *)
Definition isSwapOrPermit (c : Call) : bool :=
  match c with
  | encodeFunctionData _ _ | encodePermit _ _ => true
  | _ => false
  end.

(** A price impact above the refund threshold of fifty percent, by cross
    multiplication. *)
Definition exceedsThreshold (impact : Percent) : Prop :=
  numerator REFUND_ETH_PRICE_IMPACT_THRESHOLD * denominator impact
  < numerator impact * denominator REFUND_ETH_PRICE_IMPACT_THRESHOLD.

(** One of the three supported protocol tags. *)
Definition supportedTag (tag : option string) : Prop :=
  tag = Some Protocol.V3 \/ tag = Some Protocol.V2
  \/ tag = Some Protocol.MIXED.

(** All entries of a list agree on an attribute. *)
Definition share {A B : Type} (f : A -> B) (l : list A) : Prop :=
  forall a b, In a l -> In b l -> f a = f b.

Definition inputCurrency (trade : ProtocolTrade) : Currency :=
  currency (inputAmount trade).

Definition outputCurrency (trade : ProtocolTrade) : Currency :=
  currency (outputAmount trade).

(** A call made by [encodeFunctionData], that is, a swap. *)
Definition isSwapCall (c : Call) : bool :=
  match c with
  | encodeFunctionData _ _ => true
  | _ => false
  end.

(** The recipient handed to a swap function: in each of the six argument
    lists it is the last but one. *)
Definition recipientArg (c : Call) : option Arg :=
  match c with
  | encodeFunctionData _ args => nth_error (rev args) 1
  | _ => None
  end.

(** The minimum-output argument of an exact-input swap function: the first
    argument of [swapExactETHForTokens], the second of the two others. *)
Definition minimumOutArg (c : Call) : option Arg :=
  match c with
  | encodeFunctionData name args =>
      if String.eqb name "swapExactETHForTokens" then nth_error args 0
      else if String.eqb name "swapExactTokensForETH"
              || String.eqb name "swapExactTokensForTokens"
      then nth_error args 1
      else None
  | _ => None
  end.

(** The options with another recipient. *)
Definition withRecipient (options : SwapOptions) (r : option string)
  : SwapOptions :=
  {| slippageTolerance := slippageTolerance options;
     recipient := r;
     deadlineOrPreviousBlockhash := deadlineOrPreviousBlockhash options;
     inputTokenPermit := inputTokenPermit options;
     fee := fee options |}.

(** The unwrap or sweep call that settles a swap the router has custody
    of. *)
Definition isSettleCall (c : Call) : bool :=
  match c with
  | encodeUnwrapWETH9 _ _ _ | encodeSweepToken _ _ _ _ => true
  | _ => false
  end.

(** The call that hands the output of a swap over when the router has
    custody of it: an unwrap for native output, a sweep of the output token
    otherwise, for the aggregate minimum output. *)
Definition settlement (options : SwapOptions) (es : EncodedSwaps)
  : list Call :=
  if routerMustCustody es then
    [match currency (outputAmount (sampleTrade es)) with
     | NativeCurrency _ =>
         encodeUnwrapWETH9 (quotient (minimumAmountOut es))
           (recipient options) (fee options)
     | TokenCurrency t =>
         encodeSweepToken (Some t) (quotient (minimumAmountOut es))
           (recipient options) (fee options)
     end]
  else [].

(** Whether the refund of native input is due. *)
Definition refundDue (trades : AnyTradeType) (es : EncodedSwaps) : bool :=
  isNative (currency (inputAmount (sampleTrade es)))
  && (TradeType_eqb (tradeType (sampleTrade es)) EXACT_OUTPUT
      || riskOfPartialFill trades).

Definition isApprove (c : Call) : bool :=
  match c with
  | encodeApprove _ _ => true
  | _ => false
  end.


(** The sum of [f] over a list. *)
Fixpoint sumOver {A : Type} (f : A -> Z) (l : list A) : Z :=
  match l with
  | [] => 0
  | a :: l' => f a + sumOver f l'
  end.

(** ** Properties *)

(** *** The error monad *)

Lemma bind_Ok {A B : Type} (m : Result A) (k : A -> Result B) (b : B) :
  bind m k = Ok b -> exists a, m = Ok a /\ k a = Ok b.
Proof.
  destruct m as [a | e]; simpl; intros H.
  - exists a. split; [reflexivity | exact H].
  - discriminate H.
Qed.

Lemma invariant_Ok (condition : bool) (message : Error) (u : unit) :
  invariant condition message = Ok u -> condition = true.
Proof.
  destruct condition; simpl; [reflexivity | discriminate].
Qed.

(** Peels the binds of a hypothesis [... = Ok _] one by one. *)
Ltac ok_inv H :=
  repeat match type of H with
  | bind (invariant _ _) _ = Ok _ =>
      let u := fresh "u" in
      let Hc := fresh "Hcond" in
      apply bind_Ok in H; destruct H as [u [Hc H]];
      apply invariant_Ok in Hc
  | bind _ _ = Ok _ =>
      let a := fresh "a" in
      let Ha := fresh "Hstep" in
      apply bind_Ok in H; destruct H as [a [Ha H]]
  end.

(** *** Equality tests *)

Lemma Token_eqb_eq (a b : Token) : Token_eqb a b = true <-> a = b.
Proof.
  destruct a as [ca aa], b as [cb ab]. unfold Token_eqb. simpl.
  rewrite andb_true_iff, Z.eqb_eq, String.eqb_eq.
  split.
  - intros [-> ->]. reflexivity.
  - intros H. injection H as -> ->. split; reflexivity.
Qed.

Lemma equals_eq (a b : Currency) : equals a b = true <-> a = b.
Proof.
  destruct a as [x | s], b as [y | t]; simpl.
  - rewrite Z.eqb_eq. split; [intros -> | intros H; injection H]; auto.
  - split; discriminate.
  - split; discriminate.
  - rewrite Token_eqb_eq. split; [intros -> | intros H; injection H]; auto.
Qed.

Lemma TradeType_eqb_eq (a b : TradeType) : TradeType_eqb a b = true <-> a = b.
Proof.
  destruct a, b; simpl; split; intros H; try reflexivity; discriminate H.
Qed.

Lemma truthy_true {A : Type} (o : option A) : truthy o = true <-> o <> None.
Proof.
  destruct o; simpl; split; intros H; try reflexivity; try discriminate.
  contradiction H. reflexivity.
Qed.

Section Properties.

Context {sdk : Sdk}.

(** *** Inversion of [encodeSwaps] *)

Lemma encodeSwaps_accepted (trades : AnyTradeType) (options : SwapOptions)
    (isSwapAndAdd : bool) (es : EncodedSwaps) :
  encodeSwaps trades options isSwapAndAdd = Ok es ->
  exists legs permit encoded,
    Accepted trades options isSwapAndAdd es legs permit encoded.
Proof.
  unfold encodeSwaps. intros H.
  apply bind_Ok in H. destruct H as [legs [Hn H]].
  destruct legs as [| sample rest]; [discriminate H |].
  unfold encodeSwapsOf in H.
  ok_inv H.
  injection H as <-.
  exists (sample :: rest), a, a0.
  constructor; simpl; try assumption; try reflexivity.
  destruct (inputTokenPermit options) as [p |].
  - ok_inv Hstep. injection Hstep as <-. split; [assumption | reflexivity].
  - injection Hstep as <-. reflexivity.
Qed.

(** The normalized array of an accepted input is never empty, and the
    sample trade is its first entry. *)
Lemma Accepted_legs (trades : AnyTradeType) (options : SwapOptions)
    (isSwapAndAdd : bool) (es : EncodedSwaps) (legs : list ProtocolTrade)
    (permit encoded : list Call) :
  Accepted trades options isSwapAndAdd es legs permit encoded ->
  exists rest, legs = sampleTrade es :: rest.
Proof.
  intros Hacc. pose proof (acc_sample Hacc) as Hs.
  destruct legs as [| leg rest]; simpl in Hs; [discriminate Hs |].
  injection Hs as ->. exists rest. reflexivity.
Qed.

(** What the three [every] checks give: each leg has the currencies and the
    trade type of the sample trade. *)
Lemma Accepted_homogeneous (trades : AnyTradeType) (options : SwapOptions)
    (isSwapAndAdd : bool) (es : EncodedSwaps) (legs : list ProtocolTrade)
    (permit encoded : list Call) :
  Accepted trades options isSwapAndAdd es legs permit encoded ->
  Forall (fun leg =>
            currency (inputAmount leg) = currency (inputAmount (sampleTrade es))
            /\ currency (outputAmount leg)
               = currency (outputAmount (sampleTrade es))
            /\ tradeType leg = tradeType (sampleTrade es)) legs.
Proof.
  intros Hacc. apply Forall_forall. intros leg Hleg.
  pose proof (acc_tokenIn Hacc) as Hi.
  pose proof (acc_tokenOut Hacc) as Ho.
  pose proof (acc_tradeType Hacc) as Ht.
  rewrite forallb_forall in Hi, Ho, Ht.
  repeat split.
  - apply equals_eq, Hi, Hleg.
  - apply equals_eq, Ho, Hleg.
  - apply TradeType_eqb_eq, Ht, Hleg.
Qed.

(** *** Counting legs *)

Lemma fold_segments (legs : list ProtocolTrade) (n : nat) :
  fold_left (fun k trade => (k + segments trade)%nat) legs n
  = (n + list_sum (map segments legs))%nat.
Proof.
  revert n. induction legs as [| leg legs IH]; intros n; simpl.
  - lia.
  - rewrite IH. lia.
Qed.

Lemma numberOfTrades_sum (legs : list ProtocolTrade) :
  numberOfTrades legs = list_sum (map segments legs).
Proof. unfold numberOfTrades. rewrite fold_segments. reflexivity. Qed.

(** *** Custody *)

(** C3.  For every accepted input, the aggregated slippage check is in
    effect exactly when the trade type is EXACT_INPUT and the leg count
    exceeds two, the count being the sum over the legs of one for a V2 trade
    object and of the number of its swaps for a V3 or mixed trade object;
    and [routerMustCustody] holds exactly when the output currency is
    native, or a fee is given, or the compile is a swap-and-add, or that
    check is in effect.  The trade type and the output currency are those
    of every leg. *)
Theorem routerMustCustody_iff (trades : AnyTradeType) (options : SwapOptions)
    (isSwapAndAdd : bool) (es : EncodedSwaps) :
  encodeSwaps trades options isSwapAndAdd = Ok es ->
  exists legs,
    normalize trades = Ok legs
    /\ Forall (fun leg =>
                 tradeType leg = tradeType (sampleTrade es)
                 /\ currency (outputAmount leg)
                    = currency (outputAmount (sampleTrade es))) legs
    /\ (performAggregatedSlippageCheck (sampleTrade es) legs = true
        <-> tradeType (sampleTrade es) = EXACT_INPUT
            /\ (2 < list_sum
                      (map (fun leg =>
                              match class leg with
                              | V2Trade => 1
                              | V3Trade swaps_length => swaps_length
                              | MixedRouteTrade swaps_length => swaps_length
                              end) legs))%nat)
    /\ (routerMustCustody es = true
        <-> isNative (currency (outputAmount (sampleTrade es))) = true
            \/ fee options <> None
            \/ isSwapAndAdd = true
            \/ performAggregatedSlippageCheck (sampleTrade es) legs = true).
Proof.
  intros H. apply encodeSwaps_accepted in H.
  destruct H as [legs [permit [encoded Hacc]]].
  exists legs. split; [exact (acc_normalize Hacc) |].
  split; [| split].
  - pose proof (Accepted_homogeneous _ _ _ _ _ _ _ Hacc) as Hh.
    eapply Forall_impl; [| exact Hh]. simpl. intros leg [_ [Ho Ht]].
    split; assumption.
  - unfold performAggregatedSlippageCheck.
    rewrite andb_true_iff, TradeType_eqb_eq, Nat.ltb_lt, numberOfTrades_sum.
    change segments
      with (fun leg => match class leg with
                       | V2Trade => 1%nat
                       | V3Trade swaps_length => swaps_length
                       | MixedRouteTrade swaps_length => swaps_length
                       end).
    reflexivity.
  - rewrite (acc_custody Hacc), (acc_outputIsNative Hacc).
    rewrite !orb_true_iff, truthy_true. tauto.
Qed.

(** *** Aggregate figures *)

Lemma add_Ok (a b c : CurrencyAmount) :
  add a b = Ok c ->
  currency b = currency a /\ currency c = currency a
  /\ quotient c = quotient a + quotient b.
Proof.
  unfold add. intros H. ok_inv H. injection H as <-.
  apply equals_eq in Hcond. simpl. auto.
Qed.

(** A [reduce] that adds one amount per entry returns the start value plus
    the sum of those amounts, all in the currency of the start value. *)
Lemma reduceM_add {A : Type} (f : A -> Result CurrencyAmount) (l : list A)
    (init r : CurrencyAmount) :
  reduceM (fun sum a => m <- f a ;; add sum m) l init = Ok r ->
  exists ms,
    mapM f l = Ok ms
    /\ currency r = currency init
    /\ quotient r = quotient init + sumOver quotient ms
    /\ Forall (fun m => currency m = currency init) ms.
Proof.
  revert init. induction l as [| a l IH]; intros init H; simpl in H.
  - injection H as <-. exists []. simpl. repeat split; auto. lia.
  - apply bind_Ok in H. destruct H as [sum [Hsum H]].
    apply bind_Ok in Hsum. destruct Hsum as [m [Hm Hsum]].
    apply add_Ok in Hsum. destruct Hsum as [Hb [Hc Hq]].
    apply IH in H. destruct H as [ms [Hms [Hcur [Hquo Hall]]]].
    exists (m :: ms). simpl. rewrite Hm, Hms. simpl.
    repeat split.
    + congruence.
    + rewrite Hquo, Hq. lia.
    + constructor; [exact Hb |].
      eapply Forall_impl; [| exact Hall]. simpl. intros m' Hm'. congruence.
Qed.

Lemma mapM_pure {A B : Type} (f : A -> B) (l : list A) :
  mapM (fun a => Ok (f a)) l = Ok (map f l).
Proof.
  induction l as [| a l IH]; simpl; [reflexivity |].
  rewrite IH. reflexivity.
Qed.

Lemma sumOver_map {A B : Type} (f : A -> B) (g : B -> Z) (l : list A) :
  sumOver g (map f l) = sumOver (fun a => g (f a)) l.
Proof.
  induction l as [| a l IH]; simpl; [reflexivity |].
  rewrite IH. reflexivity.
Qed.

(** The three figures of an accepted input, as sums over its legs. *)
Lemma Accepted_figures (trades : AnyTradeType) (options : SwapOptions)
    (isSwapAndAdd : bool) (es : EncodedSwaps) (legs : list ProtocolTrade)
    (permit encoded : list Call) :
  Accepted trades options isSwapAndAdd es legs permit encoded ->
  exists maxIns minOuts,
    mapM (fun leg => trade_maximumAmountIn leg (slippageTolerance options))
      legs = Ok maxIns
    /\ mapM (fun leg => trade_minimumAmountOut leg (slippageTolerance options))
         legs = Ok minOuts
    /\ totalAmountIn es
       = fromRawAmount (currency (inputAmount (sampleTrade es)))
           (sumOver quotient maxIns)
    /\ minimumAmountOut es
       = fromRawAmount (currency (outputAmount (sampleTrade es)))
           (sumOver quotient minOuts)
    /\ quoteAmountOut es
       = fromRawAmount (currency (outputAmount (sampleTrade es)))
           (sumOver (fun leg => quotient (outputAmount leg)) legs).
Proof.
  intros Hacc.
  pose proof (acc_totalAmountIn Hacc) as Hin.
  pose proof (acc_minimumAmountOut Hacc) as Hout.
  pose proof (acc_quoteAmountOut Hacc) as Hquote.
  apply reduceM_add in Hin. destruct Hin as [maxIns [Hmi [Hci [Hqi _]]]].
  apply reduceM_add in Hout. destruct Hout as [minOuts [Hmo [Hco [Hqo _]]]].
  change (reduceM (fun sum trade => m <- Ok (outputAmount trade) ;; add sum m)
            legs (fromRawAmount (currency (outputAmount (sampleTrade es))) 0)
          = Ok (quoteAmountOut es)) in Hquote.
  apply reduceM_add in Hquote. destruct Hquote as [outs [Hmq [Hcq [Hqq _]]]].
  rewrite mapM_pure in Hmq. injection Hmq as <-.
  rewrite sumOver_map in Hqq.
  exists maxIns, minOuts.
  split; [exact Hmi |]. split; [exact Hmo |].
  simpl in Hci, Hqi, Hco, Hqo, Hcq, Hqq.
  repeat split.
  - destruct (totalAmountIn es) as [c q]. simpl in *. subst. reflexivity.
  - destruct (minimumAmountOut es) as [c q]. simpl in *. subst. reflexivity.
  - destruct (quoteAmountOut es) as [c q]. simpl in *. subst. reflexivity.
Qed.

(** C7.  For every accepted input, each leg has a worst-case maximum input
    and a worst-case minimum output at the slippage tolerance of the
    options, and [totalAmountIn] is the sum of the former over the legs,
    [minimumAmountOut] the sum of the latter, and [quoteAmountOut] the sum
    of the legs' own output amounts, in the currencies of the sample
    trade. *)
Theorem aggregate_figures (trades : AnyTradeType) (options : SwapOptions)
    (isSwapAndAdd : bool) (es : EncodedSwaps) :
  encodeSwaps trades options isSwapAndAdd = Ok es ->
  exists legs maxIns minOuts,
    normalize trades = Ok legs
    /\ mapM (fun leg => trade_maximumAmountIn leg (slippageTolerance options))
         legs = Ok maxIns
    /\ mapM (fun leg => trade_minimumAmountOut leg (slippageTolerance options))
         legs = Ok minOuts
    /\ totalAmountIn es
       = fromRawAmount (currency (inputAmount (sampleTrade es)))
           (sumOver quotient maxIns)
    /\ minimumAmountOut es
       = fromRawAmount (currency (outputAmount (sampleTrade es)))
           (sumOver quotient minOuts)
    /\ quoteAmountOut es
       = fromRawAmount (currency (outputAmount (sampleTrade es)))
           (sumOver (fun leg => quotient (outputAmount leg)) legs).
Proof.
  intros H. apply encodeSwaps_accepted in H.
  destruct H as [legs [permit [encoded Hacc]]].
  destruct (Accepted_figures _ _ _ _ _ _ _ Hacc) as [maxIns [minOuts Hfig]].
  exists legs, maxIns, minOuts.
  split; [exact (acc_normalize Hacc) | exact Hfig].
Qed.

(** *** Transaction value of a swap *)

(** C8.  When [swapCallParameters] returns, the value is the hexadecimal
    form of [totalAmountIn], the sum of the legs' maximum inputs, if the
    input currency is native, and of zero otherwise; the input currency is
    that of every leg. *)
Theorem swap_value (trades : AnyTradeType) (options : SwapOptions)
    (mp : MethodParameters) :
  swapCallParameters trades options = Ok mp ->
  exists es legs maxIns,
    encodeSwaps trades options false = Ok es
    /\ normalize trades = Ok legs
    /\ Forall (fun leg => currency (inputAmount leg)
                          = currency (inputAmount (sampleTrade es))) legs
    /\ mapM (fun leg => trade_maximumAmountIn leg (slippageTolerance options))
         legs = Ok maxIns
    /\ quotient (totalAmountIn es) = sumOver quotient maxIns
    /\ value mp
       = toHex (if isNative (currency (inputAmount (sampleTrade es)))
                then quotient (totalAmountIn es) else 0).
Proof.
  unfold swapCallParameters. intros H.
  apply bind_Ok in H. destruct H as [es [Hes H]].
  apply bind_Ok in H. destruct H as [l [Hl H]].
  injection H as <-. simpl.
  pose proof Hes as Hacc. apply encodeSwaps_accepted in Hacc.
  destruct Hacc as [legs [permit [encoded Hacc]]].
  destruct (Accepted_figures _ _ _ _ _ _ _ Hacc)
    as [maxIns [minOuts [Hmi [_ [Htot _]]]]].
  exists es, legs, maxIns.
  split; [exact Hes |].
  split; [exact (acc_normalize Hacc) |].
  split.
  { pose proof (Accepted_homogeneous _ _ _ _ _ _ _ Hacc) as Hh.
    eapply Forall_impl; [| exact Hh]. simpl. intros leg [Hi _]. exact Hi. }
  split; [exact Hmi |].
  split; [rewrite Htot; reflexivity |].
  rewrite (acc_inputIsNative Hacc). reflexivity.
Qed.

(** *** The calldata returned *)

(** C1.  Whenever one of the two public methods returns, its [calldata] is
    the entry at index zero of the array [calldatas] it has assembled, and
    nothing else of that array. *)
Theorem calldata_is_first_entry :
  (forall trades options mp,
      swapCallParameters trades options = Ok mp ->
      exists es assembled,
        encodeSwaps trades options false = Ok es
        /\ swapCalldatas trades options es = Ok assembled
        /\ calldata mp = nth_error assembled 0)
  /\ (forall trades options position addLiquidityOptions tokenInApprovalType
             tokenOutApprovalType mp,
         swapAndAddCallParameters trades options position addLiquidityOptions
           tokenInApprovalType tokenOutApprovalType = Ok mp ->
         exists assembled,
           swapAndAddAssemble trades options position addLiquidityOptions
             tokenInApprovalType tokenOutApprovalType = Ok assembled
           /\ calldata mp = nth_error (saa_calldatas assembled) 0).
Proof.
  split.
  - intros trades options mp H. unfold swapCallParameters in H.
    apply bind_Ok in H. destruct H as [es [Hes H]].
    apply bind_Ok in H. destruct H as [l [Hl H]].
    injection H as <-. exists es, l. simpl. auto.
  - intros trades options position addLiquidityOptions tin tout mp H.
    unfold swapAndAddCallParameters in H.
    apply bind_Ok in H. destruct H as [a [Ha H]].
    injection H as <-. exists a. simpl. auto.
Qed.

(** *** The leg encoder *)

(** C4.  For one V2 leg whose amounts and recipient are available, the
    encoder picks the function by trade type and by which end is native,
    six variants in all: exact input with native input takes
    [minOut-or-zero, path, recipient, deadline]; the two other exact-input
    variants take [amountIn, minOut-or-zero, path, recipient, deadline];
    every exact-output variant takes
    [amountOut, amountIn, path, recipient, deadline].  The minimum-output
    argument is the number zero exactly when the aggregated slippage check
    is in effect. *)
Theorem encodeV2Swap_variants (trade : ProtocolTrade) (options : SwapOptions)
    (custody check : bool) (maxIn minOut : CurrencyAmount) (to : string) :
  trade_maximumAmountIn trade (slippageTolerance options) = Ok maxIn ->
  trade_minimumAmountOut trade (slippageTolerance options) = Ok minOut ->
  swapRecipient options custody = Ok to ->
  let amountIn := ArgString (toHex (quotient maxIn)) in
  let amountOut := ArgString (toHex (quotient minOut)) in
  let minOutOrZero := if check then ArgNumber 0 else amountOut in
  let rest :=
    [ArgArray (map address (path (route trade))); ArgString to;
     ArgValidation (deadlineOrPreviousBlockhash options)] in
  (minOutOrZero = ArgNumber 0 <-> check = true)
  /\ encodeV2Swap trade options custody check
     = Ok (match tradeType trade,
                 isNative (currency (inputAmount trade)),
                 isNative (currency (outputAmount trade)) with
           | EXACT_INPUT, true, _ =>
               encodeFunctionData "swapExactETHForTokens"
                 (minOutOrZero :: rest)
           | EXACT_INPUT, false, true =>
               encodeFunctionData "swapExactTokensForETH"
                 (amountIn :: minOutOrZero :: rest)
           | EXACT_INPUT, false, false =>
               encodeFunctionData "swapExactTokensForTokens"
                 (amountIn :: minOutOrZero :: rest)
           | EXACT_OUTPUT, true, _ =>
               encodeFunctionData "swapETHForExactTokens"
                 (amountOut :: amountIn :: rest)
           | EXACT_OUTPUT, false, true =>
               encodeFunctionData "swapTokensForExactETH"
                 (amountOut :: amountIn :: rest)
           | EXACT_OUTPUT, false, false =>
               encodeFunctionData "swapTokensForExactTokens"
                 (amountOut :: amountIn :: rest)
           end).
Proof.
  intros Hin Hout Hto. cbv zeta. split.
  - destruct check; split; intros H; try reflexivity; discriminate H.
  - unfold encodeV2Swap. rewrite Hin, Hout, Hto. simpl.
    destruct (tradeType trade),
      (isNative (currency (inputAmount trade))),
      (isNative (currency (outputAmount trade))); reflexivity.
Qed.

(** *** One call per V2 leg *)

Lemma mapM_Forall2 {A B : Type} (f : A -> Result B) (l : list A)
    (bs : list B) :
  mapM f l = Ok bs -> Forall2 (fun a b => f a = Ok b) l bs.
Proof.
  revert bs. induction l as [| a l IH]; intros bs H; simpl in H.
  - injection H as <-. constructor.
  - ok_inv H. injection H as <-. constructor; [assumption | auto].
Qed.

Lemma Forall2_right {A B : Type} (R : A -> B -> Prop) (P : B -> Prop)
    (l : list A) (l' : list B) :
  (forall a b, R a b -> P b) -> Forall2 R l l' -> Forall P l'.
Proof.
  intros HRP H. induction H as [| a b l l' Hab _ IH]; constructor.
  - exact (HRP a b Hab).
  - exact IH.
Qed.

Lemma V2Trade_new_Ok (rt : Route) (amount : CurrencyAmount) (tt : TradeType)
    (leg : ProtocolTrade) :
  V2Trade_new rt amount tt = Ok leg ->
  class leg = V2Trade /\ route leg = rt /\ tradeType leg = tt.
Proof.
  unfold V2Trade_new. intros H. ok_inv H.
  destruct a as [[amountIn amountOut] impact]. injection H as <-.
  simpl. auto.
Qed.

(** Every leg of an unbundled aggregate trade is a V2 trade object, one per
    swap, built by the V2 constructor from the swap's route, the amount on
    the exact side, and the trade type of the aggregate. *)
Lemma unbundle_Ok (t : Trade) (legs : list ProtocolTrade) :
  unbundle t = Ok legs ->
  forallb supportedProtocol (swaps t) = true
  /\ Forall2 (fun s leg =>
                V2Trade_new (swap_route s)
                  (match trade_tradeType t with
                   | EXACT_INPUT => swap_inputAmount s
                   | EXACT_OUTPUT => swap_outputAmount s
                   end)
                  (trade_tradeType t) = Ok leg) (swaps t) legs
  /\ Forall (fun leg => isV2Trade leg = true) legs.
Proof.
  unfold unbundle. intros H. ok_inv H.
  apply mapM_Forall2 in H. split; [assumption |]. split; [exact H |].
  eapply Forall2_right; [| exact H]. simpl. intros s leg Hleg.
  apply V2Trade_new_Ok in Hleg. destruct Hleg as [Hc _].
  unfold isV2Trade. rewrite Hc. reflexivity.
Qed.

Lemma filter_all {A : Type} (p : A -> bool) (l : list A) :
  Forall (fun a => p a = true) l -> filter p l = l.
Proof.
  induction 1 as [| a l Ha _ IH]; simpl; [reflexivity |].
  rewrite Ha, IH. reflexivity.
Qed.

(** The loop pushes the encoding of each V2 trade object, in order, and
    nothing for any other trade object. *)
Lemma encodeTrades_Ok (legs : list ProtocolTrade) (options : SwapOptions)
    (custody check : bool) (encoded : list Call) :
  encodeTrades legs options custody check = Ok encoded ->
  Forall2 (fun leg call => encodeV2Swap leg options custody check = Ok call)
    (filter isV2Trade legs) encoded.
Proof.
  revert encoded. induction legs as [| leg legs IH]; intros encoded H;
    simpl in H.
  - injection H as <-. constructor.
  - apply bind_Ok in H. destruct H as [pushed [Hp H]].
    apply bind_Ok in H. destruct H as [more [Hm H]].
    injection H as <-. simpl.
    destruct (isV2Trade leg).
    + apply bind_Ok in Hp. destruct Hp as [c [Hc Hp]]. injection Hp as <-.
      simpl. constructor; [exact Hc | auto].
    + injection Hp as <-. simpl. auto.
Qed.

(** C2, as the code has it.  For every accepted input the array
    [calldatas] that [encodeSwaps] returns is the input-permit call, if a
    permit is given, followed by exactly one encoded swap call per
    normalized leg that is a V2 trade object, in the order of the legs; a
    V3 or mixed trade object gets no call.  Every leg of an aggregate trade
    is a V2 trade object, so there each swap gets its call. *)
Theorem swap_calls_per_V2_leg (trades : AnyTradeType) (options : SwapOptions)
    (isSwapAndAdd : bool) (es : EncodedSwaps) :
  encodeSwaps trades options isSwapAndAdd = Ok es ->
  exists legs permit swapCalls,
    normalize trades = Ok legs
    /\ calldatas es = permit ++ swapCalls
    /\ permit = match inputTokenPermit options with
                | Some p =>
                    [encodePermit (currency (inputAmount (sampleTrade es))) p]
                | None => []
                end
    /\ Forall2 (fun leg call =>
                  encodeV2Swap leg options (routerMustCustody es)
                    (performAggregatedSlippageCheck (sampleTrade es) legs)
                  = Ok call)
         (filter isV2Trade legs) swapCalls
    /\ (forall t, trades = Aggregate t ->
                  filter isV2Trade legs = legs
                  /\ List.length swapCalls = List.length (swaps t)).
Proof.
  intros H. apply encodeSwaps_accepted in H.
  destruct H as [legs [permit [encoded Hacc]]].
  exists legs, permit, encoded.
  pose proof (acc_normalize Hacc) as Hn.
  pose proof (encodeTrades_Ok _ _ _ _ _ (acc_encoded Hacc))
    as Hcalls.
  split; [exact Hn |].
  split; [exact (acc_calldatas Hacc) |].
  split.
  { pose proof (acc_permit Hacc) as Hp.
    destruct (inputTokenPermit options); [destruct Hp |]; assumption. }
  split; [exact Hcalls |].
  intros t ->. simpl in Hn. apply unbundle_Ok in Hn.
  destruct Hn as [_ [Hlegs Hv2]].
  apply filter_all in Hv2. rewrite Hv2 in Hcalls. split; [exact Hv2 |].
  apply Forall2_length in Hcalls. apply Forall2_length in Hlegs. congruence.
Qed.

(** *** The refund of native input *)

Lemma encodeV2Swap_isSwap (trade : ProtocolTrade) (options : SwapOptions)
    (custody check : bool) (call : Call) :
  encodeV2Swap trade options custody check = Ok call ->
  isSwapOrPermit call = true.
Proof.
  unfold encodeV2Swap. intros H. ok_inv H.
  destruct (tradeType trade),
    (isNative (currency (inputAmount trade))),
    (isNative (currency (outputAmount trade)));
    injection H as <-; reflexivity.
Qed.

(** The array [encodeSwaps] returns holds swap calls and permit calls
    only. *)
Lemma Accepted_calls (trades : AnyTradeType) (options : SwapOptions)
    (isSwapAndAdd : bool) (es : EncodedSwaps) (legs : list ProtocolTrade)
    (permit encoded : list Call) :
  Accepted trades options isSwapAndAdd es legs permit encoded ->
  Forall (fun c => isSwapOrPermit c = true) (calldatas es).
Proof.
  intros Hacc. rewrite (acc_calldatas Hacc).
  apply Forall_app. split.
  - pose proof (acc_permit Hacc) as Hp.
    destruct (inputTokenPermit options) as [p |].
    + destruct Hp as [_ ->]. repeat constructor.
    + rewrite Hp. constructor.
  - pose proof (encodeTrades_Ok _ _ _ _ _ (acc_encoded Hacc))
      as Hcalls.
    eapply Forall2_right; [| exact Hcalls]. simpl.
    intros leg call. apply encodeV2Swap_isSwap.
Qed.

Lemma Percent_greaterThan_threshold (impact : Percent) :
  Percent_greaterThan impact REFUND_ETH_PRICE_IMPACT_THRESHOLD = true
  <-> exceedsThreshold impact.
Proof.
  unfold Percent_greaterThan, exceedsThreshold. apply Z.ltb_lt.
Qed.

Lemma v3TradeWithHighPriceImpact_iff (trade : ProtocolTrade) :
  v3TradeWithHighPriceImpact trade = true
  <-> class trade <> V2Trade /\ exceedsThreshold (priceImpact trade).
Proof.
  unfold v3TradeWithHighPriceImpact, isV2Trade.
  rewrite andb_true_iff, Percent_greaterThan_threshold.
  destruct (class trade); simpl; split; intros [Hc Hi]; split;
    try assumption; try discriminate; try reflexivity.
  contradiction Hc. reflexivity.
Qed.

(** C5, as the code has it.  In the swap-only flow the refund call is in
    the call list exactly when the input currency is native and the trade
    type is EXACT_OUTPUT or a risk of partial fill is detected, and it is
    then the last call and the only refund.  The risk is assessed on the
    trades as the caller passed them: in an array, when some entry that is
    no V2 trade object has a price impact above fifty percent; for one
    trade object, when it is no V2 trade object and its price impact is
    above fifty percent; for an aggregate trade, when the price impact of
    the aggregate itself is above fifty percent.  A V2 trade object never
    flags the risk. *)
Theorem refund_iff (trades : AnyTradeType) (options : SwapOptions)
    (es : EncodedSwaps) (assembled : list Call) :
  encodeSwaps trades options false = Ok es ->
  swapCalldatas trades options es = Ok assembled ->
  (In encodeRefundETH assembled
   <-> isNative (currency (inputAmount (sampleTrade es))) = true
       /\ (tradeType (sampleTrade es) = EXACT_OUTPUT
           \/ riskOfPartialFill trades = true))
  /\ (In encodeRefundETH assembled ->
      exists body,
        assembled = body ++ [encodeRefundETH] /\ ~ In encodeRefundETH body)
  /\ (riskOfPartialFill trades = true
      <-> match trades with
          | TradeArray ts =>
              Exists (fun trade => class trade <> V2Trade
                                   /\ exceedsThreshold (priceImpact trade)) ts
          | Single trade =>
              class trade <> V2Trade /\ exceedsThreshold (priceImpact trade)
          | Aggregate t => exceedsThreshold (trade_priceImpact t)
          end).
Proof.
  intros Hes Hl.
  apply encodeSwaps_accepted in Hes.
  destruct Hes as [legs [permit [encoded Hacc]]].
  pose proof (Accepted_calls _ _ _ _ _ _ _ Hacc) as Hcalls.
  rewrite Forall_forall in Hcalls.
  assert (Hbody : ~ In encodeRefundETH (calldatas es)).
  { intros Hin. apply Hcalls in Hin. discriminate Hin. }
  unfold swapCalldatas in Hl.
  apply bind_Ok in Hl. destruct Hl as [settle [Hs Hl]].
  assert (Hsettle : ~ In encodeRefundETH settle).
  { destruct (routerMustCustody es); [destruct (outputIsNative es) |].
    - injection Hs as <-. simpl. intros [H | []]. discriminate H.
    - apply bind_Ok in Hs. destruct Hs as [w [_ Hs]]. injection Hs as <-.
      simpl. intros [H | []]. discriminate H.
    - injection Hs as <-. simpl. tauto. }
  injection Hl as <-.
  rewrite (acc_inputIsNative Hacc).
  set (refund := isNative (currency (inputAmount (sampleTrade es)))
                 && (TradeType_eqb (tradeType (sampleTrade es)) EXACT_OUTPUT
                     || riskOfPartialFill trades)).
  assert (Hrefund : refund = true
                    <-> isNative (currency (inputAmount (sampleTrade es)))
                        = true
                        /\ (tradeType (sampleTrade es) = EXACT_OUTPUT
                            \/ riskOfPartialFill trades = true)).
  { unfold refund. rewrite andb_true_iff, orb_true_iff, TradeType_eqb_eq.
    reflexivity. }
  split; [| split].
  - rewrite <- Hrefund. rewrite !in_app_iff.
    destruct refund; simpl; split; intros H; try reflexivity; try tauto.
    discriminate H.
  - rewrite !in_app_iff. intros Hin.
    destruct refund; simpl in *.
    + exists (calldatas es ++ settle). rewrite app_assoc.
      split; [reflexivity |]. rewrite in_app_iff. tauto.
    + tauto.
  - destruct trades as [t | trade | ts]; simpl.
    + apply Percent_greaterThan_threshold.
    + apply v3TradeWithHighPriceImpact_iff.
    + rewrite existsb_exists, Exists_exists.
      split; intros [trade [Hin Hrisk]]; exists trade; split;
        try assumption; apply v3TradeWithHighPriceImpact_iff; assumption.
Qed.

(** *** Validation *)

Lemma supportedProtocol_iff (s : Swap) :
  supportedProtocol s = true <-> supportedTag (protocol (swap_route s)).
Proof.
  unfold supportedProtocol, supportedTag, protocol_eq.
  destruct (protocol (swap_route s)) as [tag |].
  - rewrite !orb_true_iff, !String.eqb_eq.
    split.
    + intros [[H | H] | H]; subst; auto.
    + intros [H | [H | H]]; injection H as ->; auto.
  - split; [intros H; discriminate H | intros [H | [H | H]]; discriminate H].
Qed.

(** The legs of an unbundled aggregate trade keep the routes of its swaps,
    whose tags have passed the protocol check. *)
Lemma unbundle_tags (t : Trade) (legs : list ProtocolTrade) :
  unbundle t = Ok legs ->
  Forall (fun leg => supportedTag (protocol (route leg))) legs.
Proof.
  intros H. apply unbundle_Ok in H. destruct H as [Hsup [Hlegs _]].
  rewrite forallb_forall in Hsup.
  induction Hlegs as [| s leg ss legs Hleg _ IH]; constructor.
  - apply V2Trade_new_Ok in Hleg. destruct Hleg as [_ [-> _]].
    apply supportedProtocol_iff, Hsup. left. reflexivity.
  - apply IH. intros s' Hs'. apply Hsup. right. exact Hs'.
Qed.

(** An [every] check against the first entry holds exactly when all entries
    agree. *)
Lemma every_like_sample {A B : Type} (eqb : B -> B -> bool) (f : A -> B)
    (sample : A) (rest : list A) :
  (forall x y, eqb x y = true <-> x = y) ->
  forallb (fun a => eqb (f a) (f sample)) (sample :: rest) = true
  <-> share f (sample :: rest).
Proof.
  intros Heqb. rewrite forallb_forall. unfold share. split.
  - intros H a b Ha Hb.
    apply H in Ha. apply H in Hb. apply Heqb in Ha, Hb. congruence.
  - intros H a Ha. apply Heqb. apply H; [exact Ha | left; reflexivity].
Qed.

Lemma not_true_false (b : bool) (P : Prop) :
  (b = true <-> P) -> ~ P -> b = false.
Proof.
  intros H HnP. destruct b; [| reflexivity].
  exfalso. apply HnP, H. reflexivity.
Qed.

(** C6, as the code has it.  Validation stops at the first violated
    condition with its own error, and the result is then that error and
    nothing else.  The protocol check is made on an aggregate trade only:
    one with a swap whose route tag is none of the three supported ones
    fails with UNSUPPORTED_PROTOCOL.  For every shape of input, a normalized
    array whose legs do not all have the same input currency fails with
    TOKEN_IN_DIFF, else one whose legs do not all have the same output
    currency fails with TOKEN_OUT_DIFF, else one whose legs do not all have
    the same trade type fails with TRADE_TYPE_DIFF.  The legs of an accepted
    input share the input currency, the output currency and the trade type,
    and those of an accepted aggregate trade all have a supported tag on
    their route. *)
Theorem normalization_validates (trades : AnyTradeType)
    (options : SwapOptions) (isSwapAndAdd : bool) :
  (forall t,
      trades = Aggregate t ->
      ~ Forall (fun s => supportedTag (protocol (swap_route s))) (swaps t) ->
      encodeSwaps trades options isSwapAndAdd = Err UNSUPPORTED_PROTOCOL)
  /\ (forall legs,
         normalize trades = Ok legs -> legs <> [] ->
         (~ share inputCurrency legs ->
          encodeSwaps trades options isSwapAndAdd = Err TOKEN_IN_DIFF)
         /\ (share inputCurrency legs -> ~ share outputCurrency legs ->
             encodeSwaps trades options isSwapAndAdd = Err TOKEN_OUT_DIFF)
         /\ (share inputCurrency legs -> share outputCurrency legs ->
             ~ share tradeType legs ->
             encodeSwaps trades options isSwapAndAdd = Err TRADE_TYPE_DIFF))
  /\ (forall es,
         encodeSwaps trades options isSwapAndAdd = Ok es ->
         exists legs,
           normalize trades = Ok legs
           /\ share inputCurrency legs
           /\ share outputCurrency legs
           /\ share tradeType legs
           /\ (forall t,
                  trades = Aggregate t ->
                  Forall (fun leg => supportedTag (protocol (route leg)))
                    legs)).
Proof.
  split; [| split].
  - intros t -> Hbad. unfold encodeSwaps. simpl. unfold unbundle.
    rewrite (not_true_false (forallb supportedProtocol (swaps t))
               (Forall (fun s => supportedTag (protocol (swap_route s)))
                  (swaps t))); [reflexivity | | exact Hbad].
    rewrite forallb_forall, Forall_forall.
    split; intros H s Hs; apply supportedProtocol_iff, H, Hs.
  - intros legs Hn Hne. unfold encodeSwaps. rewrite Hn. simpl.
    destruct legs as [| sample rest]; [contradiction Hne; reflexivity |].
    pose proof (every_like_sample equals inputCurrency sample rest equals_eq)
      as Hin.
    pose proof (every_like_sample equals outputCurrency sample rest equals_eq)
      as Hout.
    pose proof (every_like_sample TradeType_eqb tradeType sample rest
                  TradeType_eqb_eq) as Htt.
    unfold inputCurrency in Hin at 1 2. unfold outputCurrency in Hout at 1 2.
    unfold encodeSwapsOf.
    split; [| split].
    + intros Hbad. rewrite (not_true_false _ _ Hin Hbad). reflexivity.
    + intros Hgi Hbad. rewrite (proj2 Hin Hgi).
      rewrite (not_true_false _ _ Hout Hbad). reflexivity.
    + intros Hgi Hgo Hbad. rewrite (proj2 Hin Hgi), (proj2 Hout Hgo).
      rewrite (not_true_false _ _ Htt Hbad). reflexivity.
  - intros es Hes. apply encodeSwaps_accepted in Hes.
    destruct Hes as [legs [permit [encoded Hacc]]].
    destruct (Accepted_legs _ _ _ _ _ _ _ Hacc) as [rest Hlegs].
    pose proof (acc_normalize Hacc) as Hn.
    pose proof (acc_tokenIn Hacc) as Hi.
    pose proof (acc_tokenOut Hacc) as Ho.
    pose proof (acc_tradeType Hacc) as Ht.
    exists legs. split; [exact Hn |]. rewrite Hlegs in Hi, Ho, Ht |- *.
    split; [| split; [| split]].
    + apply (every_like_sample equals inputCurrency _ _ equals_eq). exact Hi.
    + apply (every_like_sample equals outputCurrency _ _ equals_eq). exact Ho.
    + apply (every_like_sample TradeType_eqb tradeType _ _ TradeType_eqb_eq).
      exact Ht.
    + intros t ->. simpl in Hn. rewrite <- Hlegs.
      exact (unbundle_tags _ _ Hn).
Qed.

(** *** Normalizing twice *)


(** *** Pulling in the remaining output *)

Lemma filter_none {A : Type} (p q : A -> bool) (l : list A) :
  (forall a, q a = true -> p a = false) ->
  Forall (fun a => q a = true) l -> filter p l = [].
Proof.
  intros Hqp. induction 1 as [| a l Ha _ IH]; simpl; [reflexivity |].
  rewrite (Hqp a Ha). exact IH.
Qed.


Lemma swapAndAddPrepare_Ok (trades : AnyTradeType)
    (options : SwapAndAddOptions) (position : Position)
    (ctx : AddLiquidityContext) :
  swapAndAddPrepare trades options position = Ok ctx ->
  encodeSwaps trades options true = Ok (ctx_swaps ctx)
  /\ Forall (fun c => isSwapOrPermit c = true) (ctx_permit ctx)
  /\ quotient (ctx_amountOutRemaining ctx)
     = quotient (ctx_positionAmountOut ctx)
       - quotient (quoteAmountOut (ctx_swaps ctx)).
Proof.
  unfold swapAndAddPrepare. intros H.
  apply bind_Ok in H. destruct H as [es [Hes H]].
  apply bind_Ok in H. destruct H as [permit [Hp H]].
  apply bind_Ok in H. destruct H as [swapped [_ H]].
  destruct (getPositionAmounts position _) as [amountIn amountOut].
  apply bind_Ok in H. destruct H as [tokenIn [_ H]].
  apply bind_Ok in H. destruct H as [tokenOut [_ H]].
  apply bind_Ok in H. destruct H as [quoteWrapped [Hq H]].
  apply bind_Ok in H. destruct H as [remaining [Hr H]].
  injection H as <-. simpl.
  split; [exact Hes |]. split.
  - destruct (outputTokenPermit options) as [p |].
    + ok_inv Hp. injection Hp as <-. repeat constructor.
    + injection Hp as <-. constructor.
  - unfold subtract in Hr. ok_inv Hr. injection Hr as <-. simpl.
    unfold amount_wrapped in Hq.
    destruct (isToken (currency (quoteAmountOut es))).
    + injection Hq as <-. reflexivity.
    + ok_inv Hq. injection Hq as <-. reflexivity.
Qed.

(** The tokens the deposit half works on: for a native side the entry of
    the chain of the sample trade's route in the wrapped-native table, else
    the pool token of that side. *)
Lemma swapAndAddPrepare_tokens (trades : AnyTradeType)
    (options : SwapAndAddOptions) (position : Position)
    (ctx : AddLiquidityContext) :
  swapAndAddPrepare trades options position = Ok ctx ->
  ctx_tokenIn ctx
  = (if inputIsNative (ctx_swaps ctx)
     then WETH9 (chainId (route (sampleTrade (ctx_swaps ctx))))
     else Some (if ctx_zeroForOne ctx then token0 (pool position)
                else token1 (pool position)))
  /\ ctx_tokenOut ctx
     = (if outputIsNative (ctx_swaps ctx)
        then WETH9 (chainId (route (sampleTrade (ctx_swaps ctx))))
        else Some (if ctx_zeroForOne ctx then token1 (pool position)
                   else token0 (pool position))).
Proof.
  unfold swapAndAddPrepare. intros H.
  apply bind_Ok in H. destruct H as [es [Hes H]].
  apply bind_Ok in H. destruct H as [permit [Hp H]].
  apply bind_Ok in H. destruct H as [swapped [_ H]].
  unfold getPositionAmounts in H.
  destruct (mintAmounts position) as [m0 m1].
  destruct (String.eqb (address (token0 (pool position))) (address swapped));
    apply bind_Ok in H; destruct H as [tokenIn [Hin H]];
    apply bind_Ok in H; destruct H as [tokenOut [Hout H]];
    apply bind_Ok in H; destruct H as [quoteWrapped [_ H]];
    apply bind_Ok in H; destruct H as [remaining [_ H]];
    injection H as <-; cbn;
    destruct (inputIsNative es), (outputIsNative es);
    cbn in Hin, Hout; injection Hin as <-; injection Hout as <-;
    split; reflexivity.
Qed.


End Properties.

(** ** Runs on concrete inputs *)

Lemma encodeV2Swap_variants_witness :
  encodeV2Swap (sdk := Sample.sdk) Sample.v2DaiToUsdc Sample.options false false
  = Ok (encodeFunctionData "swapExactTokensForTokens"
          [ArgString "0x03e8"; ArgString "0x03de";
           ArgArray [address Sample.DAI; address Sample.USDC];
           ArgString "0x0000000000000000000000000000000000000001";
           ArgValidation (Some (Deadline 1700000000))]).
Proof.
  exact (proj2 (encodeV2Swap_variants (sdk := Sample.sdk) Sample.v2DaiToUsdc
                  Sample.options false false
                  (fromRawAmount (TokenCurrency Sample.DAI) 1000)
                  (fromRawAmount (TokenCurrency Sample.USDC) 990)
                  "0x0000000000000000000000000000000000000001"
                  eq_refl eq_refl eq_refl)).
Defined.

(** A V3 trade object passed on its own is accepted, is the one normalized
    leg, and gets no swap call. *)
Lemma swap_calls_per_leg_counterexample :
  exists es legs,
    encodeSwaps (sdk := Sample.sdk) (Single Sample.v3DaiToUsdc) Sample.options
      false = Ok es
    /\ normalize (sdk := Sample.sdk) (Single Sample.v3DaiToUsdc) = Ok legs
    /\ List.length legs = 1%nat
    /\ inputTokenPermit Sample.options = None
    /\ calldatas es = [].
Proof.
  eexists. exists [Sample.v3DaiToUsdc].
  split; [vm_compute; reflexivity |].
  repeat split.
Qed.

Lemma swap_calls_per_V2_leg_witness :
  exists es,
    encodeSwaps (sdk := Sample.sdk) (Single Sample.v2DaiToUsdc) Sample.options
      false = Ok es
    /\ exists legs permit swapCalls,
         normalize (sdk := Sample.sdk) (Single Sample.v2DaiToUsdc) = Ok legs
         /\ calldatas es = permit ++ swapCalls
         /\ permit = match inputTokenPermit Sample.options with
                     | Some p =>
                         [encodePermit
                            (currency (inputAmount (sampleTrade es))) p]
                     | None => []
                     end
         /\ Forall2 (fun leg call =>
                       encodeV2Swap (sdk := Sample.sdk) leg Sample.options
                         (routerMustCustody es)
                         (performAggregatedSlippageCheck (sampleTrade es) legs)
                       = Ok call)
              (filter isV2Trade legs) swapCalls
         /\ (forall t, Single Sample.v2DaiToUsdc = Aggregate t ->
                       filter isV2Trade legs = legs
                       /\ List.length swapCalls = List.length (swaps t)).
Proof.
  eexists. split.
  - vm_compute. reflexivity.
  - apply (swap_calls_per_V2_leg (sdk := Sample.sdk)
             (Single Sample.v2DaiToUsdc) Sample.options false).
    vm_compute. reflexivity.
Defined.

(** An aggregate trade of one V2 swap, paid in native currency with an exact
    input, is unbundled into V2 trade objects only, and the refund call is
    appended all the same, on the price impact of the aggregate. *)
Lemma refund_counterexample :
  exists es legs assembled,
    encodeSwaps (sdk := Sample.sdk) (Aggregate Sample.aggregateEtherToDai)
      Sample.options false = Ok es
    /\ normalize (sdk := Sample.sdk) (Aggregate Sample.aggregateEtherToDai)
       = Ok legs
    /\ swapCalldatas (sdk := Sample.sdk) (Aggregate Sample.aggregateEtherToDai)
         Sample.options es = Ok assembled
    /\ tradeType (sampleTrade es) = EXACT_INPUT
    /\ Forall (fun s => protocol (swap_route s) = Some Protocol.V2)
         (swaps Sample.aggregateEtherToDai)
    /\ Forall (fun leg => class leg = V2Trade) legs
    /\ ~ Exists (fun leg => class leg <> V2Trade
                            /\ exceedsThreshold (priceImpact leg)) legs
    /\ In encodeRefundETH assembled.
Proof.
  eexists. eexists. eexists.
  split; [vm_compute; reflexivity |].
  split; [vm_compute; reflexivity |].
  split; [vm_compute; reflexivity |].
  split; [reflexivity |].
  split; [repeat constructor |].
  split; [repeat constructor |].
  split.
  - intros H. apply Exists_exists in H. destruct H as [leg [Hin [Hc _]]].
    simpl in Hin. destruct Hin as [<- | []]. apply Hc. reflexivity.
  - simpl. auto.
Qed.

Lemma refund_iff_witness :
  exists es assembled,
    encodeSwaps (sdk := Sample.sdk) (Single Sample.v2EtherToDai) Sample.options
      false = Ok es
    /\ swapCalldatas (sdk := Sample.sdk) (Single Sample.v2EtherToDai)
         Sample.options es = Ok assembled
    /\ (In encodeRefundETH assembled
        <-> isNative (currency (inputAmount (sampleTrade es))) = true
            /\ (tradeType (sampleTrade es) = EXACT_OUTPUT
                \/ riskOfPartialFill (Single Sample.v2EtherToDai) = true)).
Proof.
  eexists. eexists.
  split; [vm_compute; reflexivity |].
  split; [vm_compute; reflexivity |].
  apply (refund_iff (sdk := Sample.sdk) (Single Sample.v2EtherToDai)
           Sample.options); vm_compute; reflexivity.
Defined.

Lemma calldata_is_first_entry_witness :
  exists mp,
    swapCallParameters (sdk := Sample.sdk) (Single Sample.v2EtherToDai)
      Sample.options = Ok mp
    /\ exists es assembled,
         encodeSwaps (sdk := Sample.sdk) (Single Sample.v2EtherToDai)
           Sample.options false = Ok es
         /\ swapCalldatas (sdk := Sample.sdk) (Single Sample.v2EtherToDai)
              Sample.options es = Ok assembled
         /\ calldata mp = nth_error assembled 0.
Proof.
  eexists. split.
  - vm_compute. reflexivity.
  - apply (proj1 (calldata_is_first_entry (sdk := Sample.sdk))).
    vm_compute. reflexivity.
Defined.

(** One V3 trade object of three swaps counts three legs: the aggregated
    check is in effect and the router has custody. *)
Lemma routerMustCustody_iff_witness :
  exists es,
    encodeSwaps (sdk := Sample.sdk) (Single Sample.v3ThreeSwaps)
      Sample.options false = Ok es
    /\ routerMustCustody es = true
    /\ exists legs,
         normalize (sdk := Sample.sdk) (Single Sample.v3ThreeSwaps) = Ok legs
         /\ Forall (fun leg =>
                      tradeType leg = tradeType (sampleTrade es)
                      /\ currency (outputAmount leg)
                         = currency (outputAmount (sampleTrade es))) legs
         /\ (performAggregatedSlippageCheck (sampleTrade es) legs = true
             <-> tradeType (sampleTrade es) = EXACT_INPUT
                 /\ (2 < list_sum
                           (map (fun leg =>
                                   match class leg with
                                   | V2Trade => 1
                                   | V3Trade swaps_length => swaps_length
                                   | MixedRouteTrade swaps_length =>
                                       swaps_length
                                   end) legs))%nat)
         /\ (routerMustCustody es = true
             <-> isNative (currency (outputAmount (sampleTrade es))) = true
                 \/ fee Sample.options <> None
                 \/ false = true
                 \/ performAggregatedSlippageCheck (sampleTrade es) legs
                    = true).
Proof.
  eexists. split; [vm_compute; reflexivity |].
  split; [reflexivity |].
  apply (routerMustCustody_iff (sdk := Sample.sdk)
           (Single Sample.v3ThreeSwaps) Sample.options false).
  vm_compute. reflexivity.
Defined.

Lemma aggregate_figures_witness :
  exists es,
    encodeSwaps (sdk := Sample.sdk)
      (TradeArray [Sample.v2DaiToUsdc; Sample.v3DaiToUsdc]) Sample.options
      false = Ok es
    /\ quotient (totalAmountIn es) = 2000
    /\ quotient (minimumAmountOut es) = 1980
    /\ exists legs maxIns minOuts,
         normalize (sdk := Sample.sdk)
           (TradeArray [Sample.v2DaiToUsdc; Sample.v3DaiToUsdc]) = Ok legs
         /\ mapM (fun leg =>
                    trade_maximumAmountIn (Sdk := Sample.sdk) leg
                      (slippageTolerance Sample.options)) legs = Ok maxIns
         /\ mapM (fun leg =>
                    trade_minimumAmountOut (Sdk := Sample.sdk) leg
                      (slippageTolerance Sample.options)) legs = Ok minOuts
         /\ totalAmountIn es
            = fromRawAmount (currency (inputAmount (sampleTrade es)))
                (sumOver quotient maxIns)
         /\ minimumAmountOut es
            = fromRawAmount (currency (outputAmount (sampleTrade es)))
                (sumOver quotient minOuts)
         /\ quoteAmountOut es
            = fromRawAmount (currency (outputAmount (sampleTrade es)))
                (sumOver (fun leg => quotient (outputAmount leg)) legs).
Proof.
  eexists. split; [vm_compute; reflexivity |].
  split; [reflexivity |]. split; [reflexivity |].
  apply (aggregate_figures (sdk := Sample.sdk)
           (TradeArray [Sample.v2DaiToUsdc; Sample.v3DaiToUsdc])
           Sample.options false).
  vm_compute. reflexivity.
Defined.

Lemma swap_value_witness :
  exists mp,
    swapCallParameters (sdk := Sample.sdk) (Single Sample.v2EtherToDai)
      Sample.options = Ok mp
    /\ value mp = "0x03e8"
    /\ exists es legs maxIns,
         encodeSwaps (sdk := Sample.sdk) (Single Sample.v2EtherToDai)
           Sample.options false = Ok es
         /\ normalize (sdk := Sample.sdk) (Single Sample.v2EtherToDai)
            = Ok legs
         /\ Forall (fun leg => currency (inputAmount leg)
                               = currency (inputAmount (sampleTrade es))) legs
         /\ mapM (fun leg =>
                    trade_maximumAmountIn (Sdk := Sample.sdk) leg
                      (slippageTolerance Sample.options)) legs = Ok maxIns
         /\ quotient (totalAmountIn es) = sumOver quotient maxIns
         /\ value mp
            = toHex (Sdk := Sample.sdk)
                (if isNative (currency (inputAmount (sampleTrade es)))
                 then quotient (totalAmountIn es) else 0).
Proof.
  eexists. split; [vm_compute; reflexivity |].
  split; [reflexivity |].
  apply (swap_value (sdk := Sample.sdk) (Single Sample.v2EtherToDai)
           Sample.options).
  vm_compute. reflexivity.
Defined.

(** A V2 trade object on a route with an unknown tag, and one on a route
    without a tag, each passed on its own or in an array, are accepted. *)
Lemma normalization_validates_counterexample :
  (exists es,
      encodeSwaps (sdk := Sample.sdk) (TradeArray [Sample.v2EtherToDaiV4])
        Sample.options false = Ok es
      /\ normalize (sdk := Sample.sdk) (TradeArray [Sample.v2EtherToDaiV4])
         = Ok [Sample.v2EtherToDaiV4]
      /\ protocol (route Sample.v2EtherToDaiV4) = Some "V4"
      /\ ~ supportedTag (protocol (route Sample.v2EtherToDaiV4)))
  /\ (exists es,
         encodeSwaps (sdk := Sample.sdk) (Single Sample.v2DaiToUsdcPlain)
           Sample.options false = Ok es
         /\ normalize (sdk := Sample.sdk) (Single Sample.v2DaiToUsdcPlain)
            = Ok [Sample.v2DaiToUsdcPlain]
         /\ protocol (route Sample.v2DaiToUsdcPlain) = None
         /\ ~ supportedTag (protocol (route Sample.v2DaiToUsdcPlain))).
Proof.
  split; eexists; (split; [vm_compute; reflexivity |]);
    (split; [reflexivity |]); (split; [reflexivity |]);
    intros [H | [H | H]]; discriminate H.
Qed.

Lemma normalization_validates_witness :
  encodeSwaps (sdk := Sample.sdk) (Aggregate Sample.aggregateV4) Sample.options
    false = Err UNSUPPORTED_PROTOCOL
  /\ encodeSwaps (sdk := Sample.sdk)
       (TradeArray [Sample.v2DaiToUsdc; Sample.v2EtherToDai]) Sample.options
       false = Err TOKEN_IN_DIFF
  /\ exists es,
       encodeSwaps (sdk := Sample.sdk) (Single Sample.v2DaiToUsdc)
         Sample.options false = Ok es
       /\ exists legs,
            normalize (sdk := Sample.sdk) (Single Sample.v2DaiToUsdc) = Ok legs
            /\ share inputCurrency legs
            /\ share outputCurrency legs
            /\ share tradeType legs
            /\ (forall t,
                   Single Sample.v2DaiToUsdc = Aggregate t ->
                   Forall (fun leg => supportedTag (protocol (route leg)))
                     legs).
Proof.
  split; [| split].
  - apply (proj1 (normalization_validates (sdk := Sample.sdk)
                    (Aggregate Sample.aggregateV4) Sample.options false)
             Sample.aggregateV4 eq_refl).
    intros H. inversion H as [| s l Hs _]. subst.
    destruct Hs as [Hs | [Hs | Hs]]; discriminate Hs.
  - apply (proj1 (proj2 (normalization_validates (sdk := Sample.sdk)
                           (TradeArray [Sample.v2DaiToUsdc; Sample.v2EtherToDai])
                           Sample.options false))
             [Sample.v2DaiToUsdc; Sample.v2EtherToDai] eq_refl).
    + discriminate.
    + intros H.
      specialize (H Sample.v2DaiToUsdc Sample.v2EtherToDai
                    (or_introl eq_refl) (or_intror (or_introl eq_refl))).
      discriminate H.
  - eexists. split; [vm_compute; reflexivity |].
    eapply (proj2 (proj2 (normalization_validates (sdk := Sample.sdk)
                            (Single Sample.v2DaiToUsdc) Sample.options false))).
    vm_compute. reflexivity.
Defined.




(** ** More of the router *)

Section Router.

Context {sdk : Sdk}.

(** *** Empty input *)

(** X1.  An empty array of trades, or an aggregate trade without swaps,
    passes the three [every] checks and then fails with a [TypeError] in
    [encodeSwaps] and so in both public methods. *)
Theorem empty_input_TypeError (trades : AnyTradeType) (options : SwapOptions)
    (addOptions : SwapAndAddOptions) (position : Position)
    (addLiquidityOptions : CondensedAddLiquidityOptions)
    (tokenInApprovalType tokenOutApprovalType : ApprovalTypes) :
  trades = TradeArray [] \/ (exists t, trades = Aggregate t /\ swaps t = []) ->
  (forall isSwapAndAdd,
      encodeSwaps trades options isSwapAndAdd = Err TypeError)
  /\ swapCallParameters trades options = Err TypeError
  /\ swapAndAddCallParameters trades addOptions position addLiquidityOptions
       tokenInApprovalType tokenOutApprovalType = Err TypeError.
Proof.
  intros H.
  assert (Hn : normalize trades = Ok []).
  { destruct H as [-> | [t [-> Ht]]]; [reflexivity |].
    simpl. unfold unbundle. rewrite Ht. reflexivity. }
  assert (He : forall o b, encodeSwaps trades o b = Err TypeError).
  { intros o b. unfold encodeSwaps. rewrite Hn. reflexivity. }
  split; [intros b; apply He |]. split.
  - unfold swapCallParameters. rewrite He. reflexivity.
  - unfold swapAndAddCallParameters, swapAndAddAssemble, swapAndAddPrepare.
    rewrite He. reflexivity.
Qed.

(** *** The input permit *)

(** The three [every] checks pass on an array whose legs agree. *)
Lemma every_checks_pass (sample : ProtocolTrade) (rest : list ProtocolTrade) :
  share inputCurrency (sample :: rest) ->
  share outputCurrency (sample :: rest) ->
  share tradeType (sample :: rest) ->
  forallb (fun trade => equals (currency (inputAmount trade))
                          (currency (inputAmount sample))) (sample :: rest)
  = true
  /\ forallb (fun trade => equals (currency (outputAmount trade))
                             (currency (outputAmount sample))) (sample :: rest)
     = true
  /\ forallb (fun trade => TradeType_eqb (tradeType trade) (tradeType sample))
       (sample :: rest) = true.
Proof.
  intros Hi Ho Ht. repeat split.
  - apply (every_like_sample equals inputCurrency sample rest equals_eq), Hi.
  - apply (every_like_sample equals outputCurrency sample rest equals_eq), Ho.
  - apply (every_like_sample TradeType_eqb tradeType sample rest
             TradeType_eqb_eq), Ht.
Qed.

(** X2.  When the legs pass the three homogeneity checks, an input permit
    is given and the input currency is native, [encodeSwaps] fails with
    NON_TOKEN_PERMIT, before any leg is encoded. *)
Theorem native_input_permit_rejected (trades : AnyTradeType)
    (options : SwapOptions) (isSwapAndAdd : bool)
    (legs : list ProtocolTrade) (p : PermitOptions) (leg : ProtocolTrade) :
  normalize trades = Ok legs ->
  share inputCurrency legs ->
  share outputCurrency legs ->
  share tradeType legs ->
  inputTokenPermit options = Some p ->
  In leg legs ->
  isNative (inputCurrency leg) = true ->
  encodeSwaps trades options isSwapAndAdd = Err NON_TOKEN_PERMIT.
Proof.
  intros Hn Hi Ho Ht Hp Hleg Hnative.
  unfold encodeSwaps. rewrite Hn. cbn [bind].
  destruct legs as [| sample rest]; [contradiction Hleg |].
  destruct (every_checks_pass sample rest Hi Ho Ht) as [Ei [Eo Et]].
  unfold encodeSwapsOf. rewrite Ei, Eo, Et. cbn [invariant bind].
  rewrite Hp.
  assert (Hs : isToken (currency (inputAmount sample)) = false).
  { unfold isToken. change (currency (inputAmount sample))
      with (inputCurrency sample).
    rewrite (Hi sample leg (or_introl eq_refl) Hleg), Hnative. reflexivity. }
  rewrite Hs. reflexivity.
Qed.

(** *** Settlement of a swap *)

(** The call list of [swapCallParameters] on an accepted input: the sweep
    wraps a currency that is a token, which is that token. *)
Lemma swapCalldatas_Accepted (trades : AnyTradeType) (options : SwapOptions)
    (es : EncodedSwaps) (legs : list ProtocolTrade)
    (permit encoded : list Call) :
  Accepted trades options false es legs permit encoded ->
  swapCalldatas trades options es
  = Ok (calldatas es ++ settlement options es
        ++ (if refundDue trades es then [encodeRefundETH] else [])).
Proof.
  intros Hacc. unfold swapCalldatas, settlement, refundDue.
  rewrite (acc_inputIsNative Hacc), (acc_outputIsNative Hacc).
  destruct (routerMustCustody es); [| reflexivity].
  destruct (currency (outputAmount (sampleTrade es))) as [chain | t];
    reflexivity.
Qed.

Lemma encodeTrades_length (legs : list ProtocolTrade) (options : SwapOptions)
    (custody check : bool) (encoded : list Call) :
  encodeTrades legs options custody check = Ok encoded ->
  List.length encoded = List.length (filter isV2Trade legs).
Proof.
  intros H. apply encodeTrades_Ok in H. apply Forall2_length in H.
  symmetry. exact H.
Qed.

(** X3.  When [swapCallParameters] has assembled its call list, the list
    is the calls of [encodeSwaps], then one unwrap (native output) or one
    sweep of the output token exactly when the router must have custody,
    for the sum of the legs' minimum outputs and with the recipient and fee
    of the options, then the refund if it is due.  Its length is one for a
    permit, one per V2 trade object, one under custody and one for a
    refund. *)
Theorem swap_settlement (trades : AnyTradeType) (options : SwapOptions)
    (es : EncodedSwaps) (assembled : list Call) :
  encodeSwaps trades options false = Ok es ->
  swapCalldatas trades options es = Ok assembled ->
  exists legs minOuts,
    normalize trades = Ok legs
    /\ mapM (fun leg => trade_minimumAmountOut leg (slippageTolerance options))
         legs = Ok minOuts
    /\ assembled
       = calldatas es
         ++ (if routerMustCustody es then
               [match currency (outputAmount (sampleTrade es)) with
                | NativeCurrency _ =>
                    encodeUnwrapWETH9 (sumOver quotient minOuts)
                      (recipient options) (fee options)
                | TokenCurrency t =>
                    encodeSweepToken (Some t) (sumOver quotient minOuts)
                      (recipient options) (fee options)
                end]
             else [])
         ++ (if refundDue trades es then [encodeRefundETH] else [])
    /\ List.length (filter isSettleCall assembled)
       = (if routerMustCustody es then 1%nat else 0%nat)
    /\ List.length assembled
       = ((if truthy (inputTokenPermit options) then 1 else 0)
          + List.length (filter isV2Trade legs)
          + (if routerMustCustody es then 1 else 0)
          + (if refundDue trades es then 1 else 0))%nat.
Proof.
  intros Hes Hl. pose proof Hes as Hacc. apply encodeSwaps_accepted in Hacc.
  destruct Hacc as [legs [permit [encoded Hacc]]].
  destruct (Accepted_figures _ _ _ _ _ _ _ Hacc)
    as [maxIns [minOuts [_ [Hmo [_ [Hmin _]]]]]].
  rewrite (swapCalldatas_Accepted _ _ _ _ _ _ Hacc) in Hl.
  injection Hl as <-.
  exists legs, minOuts.
  split; [exact (acc_normalize Hacc) |]. split; [exact Hmo |].
  assert (Hset : settlement options es
                 = if routerMustCustody es then
                     [match currency (outputAmount (sampleTrade es)) with
                      | NativeCurrency _ =>
                          encodeUnwrapWETH9 (sumOver quotient minOuts)
                            (recipient options) (fee options)
                      | TokenCurrency t =>
                          encodeSweepToken (Some t) (sumOver quotient minOuts)
                            (recipient options) (fee options)
                      end]
                   else []).
  { unfold settlement. rewrite Hmin. reflexivity. }
  split; [rewrite Hset; reflexivity |].
  pose proof (Accepted_calls _ _ _ _ _ _ _ Hacc) as Hcalls.
  split.
  - rewrite !filter_app, !length_app.
    rewrite (filter_none isSettleCall isSwapOrPermit (calldatas es));
      [| intros c; destruct c; simpl; congruence | exact Hcalls].
    unfold settlement.
    destruct (routerMustCustody es), (refundDue trades es);
      try destruct (currency (outputAmount (sampleTrade es))); reflexivity.
  - rewrite !length_app, (acc_calldatas Hacc), length_app.
    rewrite (encodeTrades_length _ _ _ _ _ (acc_encoded Hacc)).
    pose proof (acc_permit Hacc) as Hp.
    assert (Hlen : List.length permit
                   = if truthy (inputTokenPermit options) then 1%nat else 0%nat).
    { destruct (inputTokenPermit options); [destruct Hp as [_ ->] | rewrite Hp];
        reflexivity. }
    rewrite Hlen. unfold settlement.
    destruct (routerMustCustody es), (refundDue trades es); simpl; lia.
Qed.

(** *** Which call is returned *)

(** X4.  The calldata [swapCallParameters] returns is the permit call when
    an input permit is given; else the encoding of the first V2 trade
    object among the legs; else, when no leg is a V2 trade object, the
    unwrap or sweep if the router must have custody, else the refund if it
    is due.  It is [undefined] exactly when there is no permit, no V2 trade
    object, no custody and no refund. *)
Theorem returned_calldata (trades : AnyTradeType) (options : SwapOptions)
    (mp : MethodParameters) :
  swapCallParameters trades options = Ok mp ->
  exists es legs,
    encodeSwaps trades options false = Ok es
    /\ normalize trades = Ok legs
    /\ (forall p,
           inputTokenPermit options = Some p ->
           calldata mp
           = Some (encodePermit (currency (inputAmount (sampleTrade es))) p))
    /\ (inputTokenPermit options = None ->
        forall leg rest,
          filter isV2Trade legs = leg :: rest ->
          exists c,
            encodeV2Swap leg options (routerMustCustody es)
              (performAggregatedSlippageCheck (sampleTrade es) legs) = Ok c
            /\ calldata mp = Some c)
    /\ (inputTokenPermit options = None ->
        filter isV2Trade legs = [] ->
        calldata mp
        = nth_error (settlement options es
                     ++ (if refundDue trades es then [encodeRefundETH]
                         else [])) 0)
    /\ (calldata mp = None
        <-> inputTokenPermit options = None
            /\ filter isV2Trade legs = []
            /\ routerMustCustody es = false
            /\ refundDue trades es = false).
Proof.
  unfold swapCallParameters. intros H.
  apply bind_Ok in H. destruct H as [es [Hes H]].
  apply bind_Ok in H. destruct H as [l [Hl H]].
  injection H as <-. cbn [calldata].
  pose proof Hes as Hacc. apply encodeSwaps_accepted in Hacc.
  destruct Hacc as [legs [permit [encoded Hacc]]].
  rewrite (swapCalldatas_Accepted _ _ _ _ _ _ Hacc) in Hl.
  injection Hl as <-.
  pose proof (acc_permit Hacc) as Hp.
  pose proof (encodeTrades_Ok _ _ _ _ _ (acc_encoded Hacc)) as Hcalls.
  rewrite (acc_calldatas Hacc).
  exists es, legs. split; [exact Hes |].
  split; [exact (acc_normalize Hacc) |].
  split; [| split; [| split]].
  - intros p Hsome. rewrite Hsome in Hp. destruct Hp as [_ ->]. reflexivity.
  - intros Hnone leg rest Hv2. rewrite Hnone in Hp. subst permit.
    rewrite Hv2 in Hcalls. inversion Hcalls as [| x c l1 l2 Hc _]; subst.
    exists c. split; [exact Hc | reflexivity].
  - intros Hnone Hv2. rewrite Hnone in Hp. subst permit.
    rewrite Hv2 in Hcalls. inversion Hcalls; subst. reflexivity.
  - unfold settlement.
    destruct (inputTokenPermit options) as [p |].
    + destruct Hp as [_ ->]. simpl.
      split; [discriminate | intros [H _]; discriminate H].
    + subst permit. simpl.
      destruct (filter isV2Trade legs) as [| leg rest].
      * inversion Hcalls; subst. simpl.
        destruct (routerMustCustody es); simpl.
        { split; [discriminate | intros [_ [_ [H _]]]; discriminate H]. }
        destruct (refundDue trades es); simpl.
        { split; [discriminate | intros [_ [_ [_ H]]]; discriminate H]. }
        split; auto.
      * inversion Hcalls; subst. simpl.
        split; [discriminate | intros [_ [H _]]; discriminate H].
Qed.

(** *** Where the legs send their output *)

Lemma encodeV2Swap_recipient (trade : ProtocolTrade) (options : SwapOptions)
    (custody check : bool) (c : Call) :
  encodeV2Swap trade options custody check = Ok c ->
  exists to,
    swapRecipient options custody = Ok to
    /\ recipientArg c = Some (ArgString to).
Proof.
  unfold encodeV2Swap. intros H.
  apply bind_Ok in H. destruct H as [maxIn [_ H]].
  apply bind_Ok in H. destruct H as [minOut [_ H]].
  apply bind_Ok in H. destruct H as [to [Hto H]].
  exists to. split; [exact Hto |].
  destruct (tradeType trade),
    (isNative (currency (inputAmount trade))),
    (isNative (currency (outputAmount trade)));
    injection H as <-; reflexivity.
Qed.

(** Every swap call of an accepted input carries the recipient chosen for
    the custody flag of that input. *)
Lemma Accepted_recipients (trades : AnyTradeType) (options : SwapOptions)
    (isSwapAndAdd : bool) (es : EncodedSwaps) (legs : list ProtocolTrade)
    (permit encoded : list Call) (c : Call) :
  Accepted trades options isSwapAndAdd es legs permit encoded ->
  In c (calldatas es) -> isSwapCall c = true ->
  exists to,
    swapRecipient options (routerMustCustody es) = Ok to
    /\ recipientArg c = Some (ArgString to).
Proof.
  intros Hacc Hin Hswap. rewrite (acc_calldatas Hacc) in Hin.
  apply in_app_or in Hin. destruct Hin as [Hin | Hin].
  - pose proof (acc_permit Hacc) as Hp.
    destruct (inputTokenPermit options) as [p |].
    + destruct Hp as [_ ->]. destruct Hin as [<- | []]. discriminate Hswap.
    + subst permit. contradiction Hin.
  - pose proof (encodeTrades_Ok _ _ _ _ _ (acc_encoded Hacc)) as Hcalls.
    eapply Forall2_right in Hcalls;
      [| intros leg call Hcall;
         exact (encodeV2Swap_recipient _ _ _ _ _ Hcall)].
    rewrite Forall_forall in Hcalls. exact (Hcalls c Hin).
Qed.

(** X5.  In the call list of [encodeSwaps], every swap call names as
    recipient the router itself when the router must have custody, which is
    always so in a swap-and-add; without custody it names the sender when
    the options give no recipient, and else the recipient of the options as
    address validation returns it. *)
Theorem swap_recipients (trades : AnyTradeType) (options : SwapOptions)
    (isSwapAndAdd : bool) (es : EncodedSwaps) (c : Call) :
  encodeSwaps trades options isSwapAndAdd = Ok es ->
  In c (calldatas es) ->
  isSwapCall c = true ->
  (isSwapAndAdd = true -> routerMustCustody es = true)
  /\ (routerMustCustody es = true ->
      recipientArg c = Some (ArgString ADDRESS_THIS))
  /\ (routerMustCustody es = false -> recipient options = None ->
      recipientArg c = Some (ArgString MSG_SENDER))
  /\ (routerMustCustody es = false ->
      forall r, recipient options = Some r ->
                exists to, validateAndParseAddress r = Ok to
                           /\ recipientArg c = Some (ArgString to)).
Proof.
  intros Hes Hin Hswap. apply encodeSwaps_accepted in Hes.
  destruct Hes as [legs [permit [encoded Hacc]]].
  destruct (Accepted_recipients _ _ _ _ _ _ _ _ Hacc Hin Hswap)
    as [to [Hto Hc]].
  unfold swapRecipient in Hto.
  split; [| split; [| split]].
  - intros ->. rewrite (acc_custody Hacc).
    rewrite orb_true_r. reflexivity.
  - intros Hcust. rewrite Hcust in Hto. injection Hto as <-. exact Hc.
  - intros Hcust Hnone. rewrite Hcust, Hnone in Hto.
    injection Hto as <-. exact Hc.
  - intros Hcust r Hsome. rewrite Hcust, Hsome in Hto.
    exists to. split; assumption.
Qed.

(** *** The recipient in a swap-and-add *)

Lemma encodeV2Swap_withRecipient (trade : ProtocolTrade)
    (options : SwapOptions) (r : option string) (check : bool) :
  encodeV2Swap trade (withRecipient options r) true check
  = encodeV2Swap trade options true check.
Proof. reflexivity. Qed.

Lemma encodeTrades_withRecipient (legs : list ProtocolTrade)
    (options : SwapOptions) (r : option string) (check : bool) :
  encodeTrades legs (withRecipient options r) true check
  = encodeTrades legs options true check.
Proof.
  induction legs as [| leg legs IH]; [reflexivity |].
  cbn [encodeTrades]. rewrite IH, encodeV2Swap_withRecipient. reflexivity.
Qed.

Lemma encodeSwaps_withRecipient (trades : AnyTradeType)
    (options : SwapOptions) (r : option string) :
  encodeSwaps trades (withRecipient options r) true
  = encodeSwaps trades options true.
Proof.
  unfold encodeSwaps. destruct (normalize trades) as [legs | e];
    [| reflexivity].
  cbn [bind]. destruct legs as [| sample rest]; [reflexivity |].
  unfold encodeSwapsOf.
  cbn [fee inputTokenPermit slippageTolerance withRecipient].
  replace (isNative (currency (outputAmount sample)) || truthy (fee options)
           || true
           || performAggregatedSlippageCheck sample (sample :: rest))
    with true
    by (rewrite orb_true_r; reflexivity).
  rewrite encodeTrades_withRecipient. reflexivity.
Qed.

(** X6.  A swap-and-add never reads the recipient of the options: with any
    other recipient, valid or not, [swapAndAddCallParameters] returns the
    same. *)
Theorem swapAndAdd_ignores_recipient (trades : AnyTradeType)
    (options : SwapOptions) (outputPermit : option PermitOptions)
    (r : option string) (position : Position)
    (addLiquidityOptions : CondensedAddLiquidityOptions)
    (tokenInApprovalType tokenOutApprovalType : ApprovalTypes) :
  swapAndAddCallParameters trades
    {| swapOptions := withRecipient options r;
       outputTokenPermit := outputPermit |}
    position addLiquidityOptions tokenInApprovalType tokenOutApprovalType
  = swapAndAddCallParameters trades
      {| swapOptions := options; outputTokenPermit := outputPermit |}
      position addLiquidityOptions tokenInApprovalType tokenOutApprovalType.
Proof.
  unfold swapAndAddCallParameters, swapAndAddAssemble, swapAndAddPrepare.
  cbn [swapOptions outputTokenPermit].
  rewrite encodeSwaps_withRecipient. reflexivity.
Qed.

(** *** Inversion of the swap-and-add *)

(** What [swapAndAddPrepare] has established when it returns. *)
Lemma swapAndAddPrepare_inv (trades : AnyTradeType)
    (options : SwapAndAddOptions) (position : Position)
    (ctx : AddLiquidityContext) :
  swapAndAddPrepare trades options position = Ok ctx ->
  exists swappedToken quoteWrapped,
    encodeSwaps trades options true = Ok (ctx_swaps ctx)
    /\ match outputTokenPermit options with
       | Some p =>
           isToken (currency (quoteAmountOut (ctx_swaps ctx))) = true
           /\ ctx_permit ctx
              = [encodePermit (currency (quoteAmountOut (ctx_swaps ctx))) p]
       | None => ctx_permit ctx = []
       end
    /\ wrapped (currency (totalAmountIn (ctx_swaps ctx))) = Ok swappedToken
    /\ ctx_zeroForOne ctx
       = String.eqb (address (token0 (pool position))) (address swappedToken)
    /\ getPositionAmounts position (ctx_zeroForOne ctx)
       = (ctx_positionAmountIn ctx, ctx_positionAmountOut ctx)
    /\ amount_wrapped (quoteAmountOut (ctx_swaps ctx)) = Ok quoteWrapped
    /\ subtract (ctx_positionAmountOut ctx) quoteWrapped
       = Ok (ctx_amountOutRemaining ctx).
Proof.
  unfold swapAndAddPrepare. intros H.
  apply bind_Ok in H. destruct H as [es [Hes H]].
  apply bind_Ok in H. destruct H as [permit [Hp H]].
  apply bind_Ok in H. destruct H as [swapped [Hw H]].
  destruct (getPositionAmounts position _) as [amountIn amountOut] eqn:Hpos.
  apply bind_Ok in H. destruct H as [tokenIn [_ H]].
  apply bind_Ok in H. destruct H as [tokenOut [_ H]].
  apply bind_Ok in H. destruct H as [quoteWrapped [Hq H]].
  apply bind_Ok in H. destruct H as [remaining [Hr H]].
  injection H as <-. cbn.
  exists swapped, quoteWrapped.
  split; [exact Hes |]. split.
  { destruct (outputTokenPermit options) as [p |].
    - ok_inv Hp. injection Hp as <-. split; [assumption | reflexivity].
    - injection Hp as <-. reflexivity. }
  repeat split; assumption.
Qed.

Lemma swapAndAddAssemble_inv (trades : AnyTradeType)
    (options : SwapAndAddOptions) (position : Position)
    (addLiquidityOptions : CondensedAddLiquidityOptions)
    (tokenInApprovalType tokenOutApprovalType : ApprovalTypes)
    (a : SwapAndAdd) :
  swapAndAddAssemble trades options position addLiquidityOptions
    tokenInApprovalType tokenOutApprovalType = Ok a ->
  exists ctx,
    swapAndAddPrepare trades options position = Ok ctx
    /\ swapAndAddValue ctx = Ok (saa_value a)
    /\ saa_amountOutRemaining a = ctx_amountOutRemaining ctx
    /\ saa_calldatas a
       = calldatas (ctx_swaps ctx) ++ ctx_permit ctx
         ++ pullRemainingOutput ctx
         ++ depositCalls ctx options position addLiquidityOptions
              tokenInApprovalType tokenOutApprovalType.
Proof.
  unfold swapAndAddAssemble. intros H.
  apply bind_Ok in H. destruct H as [ctx [Hctx H]].
  apply bind_Ok in H. destruct H as [v [Hv H]].
  injection H as <-. exists ctx. cbn. auto.
Qed.

(** *** The deposit half of a swap-and-add *)

(** X7.  The call list of a swap-and-add ends with the add-liquidity call
    followed by two sweeps of whatever is left, with no minimum, recipient
    or fee: first that of the input side, then that of the output side,
    each an unwrap if the currency of its side is native and else a sweep
    of the pool token of its side.  The add-liquidity call is for the
    caller's position at the slippage tolerance of the options, with a
    minimal position on the same pool and ticks whose side fed by the swap
    is the sum of the legs' minimum outputs and whose other side is the
    caller's amount.  Before it come as many approve calls as there are
    approval types other than NOT_REQUIRED.  The list is never empty, so
    the calldata returned is never [undefined]. *)
Theorem swapAndAdd_deposit (trades : AnyTradeType)
    (options : SwapAndAddOptions) (position : Position)
    (addLiquidityOptions : CondensedAddLiquidityOptions)
    (tokenInApprovalType tokenOutApprovalType : ApprovalTypes)
    (a : SwapAndAdd) :
  swapAndAddAssemble trades options position addLiquidityOptions
    tokenInApprovalType tokenOutApprovalType = Ok a ->
  exists ctx legs minOuts before,
    swapAndAddPrepare trades options position = Ok ctx
    /\ normalize trades = Ok legs
    /\ mapM (fun leg => trade_minimumAmountOut leg (slippageTolerance options))
         legs = Ok minOuts
    /\ saa_calldatas a
       = before
         ++ [encodeAddLiquidity position
               {| fa_pool := pool position;
                  fa_tickLower := tickLower position;
                  fa_tickUpper := tickUpper position;
                  fa_amount0 := if ctx_zeroForOne ctx then amount0 position
                                else sumOver quotient minOuts;
                  fa_amount1 := if ctx_zeroForOne ctx
                                then sumOver quotient minOuts
                                else amount1 position;
                  fa_useFullPrecision := false |}
               addLiquidityOptions (slippageTolerance options);
             if isNative (currency (inputAmount
                                      (sampleTrade (ctx_swaps ctx))))
             then encodeUnwrapWETH9 0 None None
             else encodeSweepToken
                    (Some (if ctx_zeroForOne ctx then token0 (pool position)
                           else token1 (pool position))) 0 None None;
             if isNative (currency (outputAmount
                                      (sampleTrade (ctx_swaps ctx))))
             then encodeUnwrapWETH9 0 None None
             else encodeSweepToken
                    (Some (if ctx_zeroForOne ctx then token1 (pool position)
                           else token0 (pool position))) 0 None None]
    /\ List.length (filter isApprove before)
       = ((if ApprovalTypes_eqb tokenInApprovalType NOT_REQUIRED
           then 0 else 1)
          + (if ApprovalTypes_eqb tokenOutApprovalType NOT_REQUIRED
             then 0 else 1))%nat
    /\ nth_error (saa_calldatas a) 0 <> None.
Proof.
  intros H. apply swapAndAddAssemble_inv in H.
  destruct H as [ctx [Hctx [_ [_ Hl]]]].
  destruct (swapAndAddPrepare_inv _ _ _ _ Hctx)
    as [w [q [Hes [Hpermit _]]]].
  destruct (swapAndAddPrepare_tokens _ _ _ _ Hctx) as [Htin Htout].
  pose proof Hes as Hacc. apply encodeSwaps_accepted in Hacc.
  destruct Hacc as [legs [permit [encoded Hacc]]].
  destruct (Accepted_figures _ _ _ _ _ _ _ Hacc)
    as [maxIns [minOuts [_ [Hmo [_ [Hmin _]]]]]].
  pose proof (Accepted_calls _ _ _ _ _ _ _ Hacc) as Hcalls.
  set (es := ctx_swaps ctx) in *.
  set (pullIn := if inputIsNative es
                 then encodeWrapETH (quotient (ctx_positionAmountIn ctx))
                 else encodePull (ctx_tokenIn ctx)
                        (quotient (ctx_positionAmountIn ctx))).
  set (approveIn := if negb (ApprovalTypes_eqb tokenInApprovalType NOT_REQUIRED)
                    then [encodeApprove (ctx_tokenIn ctx) tokenInApprovalType]
                    else []).
  set (approveOut :=
         if negb (ApprovalTypes_eqb tokenOutApprovalType NOT_REQUIRED)
         then [encodeApprove (ctx_tokenOut ctx) tokenOutApprovalType]
         else []).
  exists ctx, legs, minOuts,
    (calldatas es ++ ctx_permit ctx ++ pullRemainingOutput ctx
     ++ [pullIn] ++ approveIn ++ approveOut).
  split; [exact Hctx |]. split; [exact (acc_normalize Hacc) |].
  split; [exact Hmo |]. split.
  { rewrite Hl. unfold depositCalls. fold es. rewrite Hmin.
    cbn [quotient fromRawAmount]. fold pullIn approveIn approveOut.
    rewrite <- (acc_inputIsNative Hacc), <- (acc_outputIsNative Hacc).
    assert (Hsin : (if inputIsNative es then encodeUnwrapWETH9 ZERO None None
                    else encodeSweepToken (ctx_tokenIn ctx) ZERO None None)
                   = (if inputIsNative es then encodeUnwrapWETH9 0 None None
                      else encodeSweepToken
                             (Some (if ctx_zeroForOne ctx
                                    then token0 (pool position)
                                    else token1 (pool position))) 0 None None)).
    { rewrite Htin. destruct (inputIsNative es); reflexivity. }
    assert (Hsout : (if outputIsNative es
                     then encodeUnwrapWETH9 ZERO None None
                     else encodeSweepToken (ctx_tokenOut ctx) ZERO None None)
                    = (if outputIsNative es
                       then encodeUnwrapWETH9 0 None None
                       else encodeSweepToken
                              (Some (if ctx_zeroForOne ctx
                                     then token1 (pool position)
                                     else token0 (pool position)))
                              0 None None)).
    { rewrite Htout. destruct (outputIsNative es); reflexivity. }
    rewrite Hsin, Hsout. rewrite <- !app_assoc. reflexivity. }
  split.
  - rewrite !filter_app, !length_app.
    rewrite (filter_none isApprove isSwapOrPermit (calldatas es));
      [| intros c; destruct c; simpl; congruence | exact Hcalls].
    assert (Hp0 : filter isApprove (ctx_permit ctx) = []).
    { destruct (outputTokenPermit options); [destruct Hpermit as [_ ->] |
        rewrite Hpermit]; reflexivity. }
    assert (Hpull : filter isApprove (pullRemainingOutput ctx) = []).
    { unfold pullRemainingOutput.
      destruct (greaterThan _ _); [| reflexivity].
      destruct (outputIsNative _); reflexivity. }
    rewrite Hp0, Hpull. unfold pullIn, approveIn, approveOut.
    destruct (inputIsNative es),
      (ApprovalTypes_eqb tokenInApprovalType NOT_REQUIRED),
      (ApprovalTypes_eqb tokenOutApprovalType NOT_REQUIRED); reflexivity.
  - rewrite Hl. unfold depositCalls.
    destruct (calldatas es); [| simpl; discriminate].
    destruct (ctx_permit ctx); [| simpl; discriminate].
    destruct (pullRemainingOutput ctx); simpl; discriminate.
Qed.

(** *** The position against the swap *)

Lemma amount_wrapped_Ok (a q : CurrencyAmount) :
  amount_wrapped a = Ok q ->
  exists w,
    wrapped (currency a) = Ok w
    /\ q = fromRawAmount (TokenCurrency w) (quotient a).
Proof.
  unfold amount_wrapped, isToken. destruct a as [[chain | t] n]; simpl.
  - intros H. apply bind_Ok in H. destruct H as [w [Hw H]].
    injection H as <-. exists w. split; [exact Hw | reflexivity].
  - intros H. injection H as <-. exists t. split; reflexivity.
Qed.

Lemma getPositionAmounts_eq (position : Position) (zeroForOne : bool) :
  getPositionAmounts position zeroForOne
  = (fromRawAmount
       (TokenCurrency (if zeroForOne then token0 (pool position)
                       else token1 (pool position)))
       (if zeroForOne then fst (mintAmounts position)
        else snd (mintAmounts position)),
     fromRawAmount
       (TokenCurrency (if zeroForOne then token1 (pool position)
                       else token0 (pool position)))
       (if zeroForOne then snd (mintAmounts position)
        else fst (mintAmounts position))).
Proof.
  unfold getPositionAmounts. destruct (mintAmounts position) as [m0 m1].
  destruct zeroForOne; reflexivity.
Qed.

(** X8.  When a swap-and-add gets as far as the remaining output amount,
    the flag [zeroForOne] says whether the first pool token has the address
    of the wrapped input currency; the position's input amount is the mint
    amount of that token if so and of the second token if not, and its
    output amount the mint amount of the other token.  The output currency
    of the swap, in wrapped form, is then that other pool token: with any
    other output currency the subtraction fails. *)
Theorem swapAndAdd_position (trades : AnyTradeType)
    (options : SwapAndAddOptions) (position : Position)
    (ctx : AddLiquidityContext) :
  swapAndAddPrepare trades options position = Ok ctx ->
  let es := ctx_swaps ctx in
  let zeroForOne := ctx_zeroForOne ctx in
  (exists w,
      wrapped (currency (inputAmount (sampleTrade es))) = Ok w
      /\ zeroForOne = String.eqb (address (token0 (pool position))) (address w))
  /\ ctx_positionAmountIn ctx
     = fromRawAmount
         (TokenCurrency (if zeroForOne then token0 (pool position)
                         else token1 (pool position)))
         (if zeroForOne then fst (mintAmounts position)
          else snd (mintAmounts position))
  /\ ctx_positionAmountOut ctx
     = fromRawAmount
         (TokenCurrency (if zeroForOne then token1 (pool position)
                         else token0 (pool position)))
         (if zeroForOne then snd (mintAmounts position)
          else fst (mintAmounts position))
  /\ wrapped (currency (outputAmount (sampleTrade es)))
     = Ok (if zeroForOne then token1 (pool position)
           else token0 (pool position)).
Proof.
  intros Hctx es zeroForOne.
  destruct (swapAndAddPrepare_inv _ _ _ _ Hctx)
    as [w [q [Hes [_ [Hw [Hz [Hpos [Hq Hsub]]]]]]]].
  pose proof Hes as Hacc. apply encodeSwaps_accepted in Hacc.
  destruct Hacc as [legs [permit [encoded Hacc]]].
  destruct (Accepted_figures _ _ _ _ _ _ _ Hacc)
    as [maxIns [minOuts [_ [_ [Htot [_ Hquote]]]]]].
  fold es in Htot, Hquote, Hw, Hq.
  rewrite getPositionAmounts_eq in Hpos. injection Hpos as Hin Hout.
  fold zeroForOne in Hin, Hout.
  split; [| split; [| split]].
  - exists w. rewrite Htot in Hw. split; [exact Hw | exact Hz].
  - symmetry. exact Hin.
  - symmetry. exact Hout.
  - apply amount_wrapped_Ok in Hq. destruct Hq as [wo [Hwo ->]].
    rewrite Hquote in Hwo. cbn [currency fromRawAmount] in Hwo.
    unfold subtract in Hsub. apply bind_Ok in Hsub.
    destruct Hsub as [u [Hcur _]]. apply invariant_Ok in Hcur.
    apply equals_eq in Hcur. rewrite <- Hout in Hcur.
    cbn [currency fromRawAmount] in Hcur. injection Hcur as Hcur.
    rewrite Hwo, Hcur. reflexivity.
Qed.

(** *** The value of a swap-and-add *)

(** X9.  The value a swap-and-add attaches is, for native input, the total
    amount swapped plus the position's input amount; else, for native
    output, the remaining output amount, that is, the position's output
    amount less the nominal output of the swap; else zero.  In the second
    case the value is that difference also when it is negative, and then no
    wrap call is in the list. *)
Theorem swapAndAdd_value (trades : AnyTradeType)
    (options : SwapAndAddOptions) (position : Position)
    (addLiquidityOptions : CondensedAddLiquidityOptions)
    (tokenInApprovalType tokenOutApprovalType : ApprovalTypes)
    (a : SwapAndAdd) :
  swapAndAddAssemble trades options position addLiquidityOptions
    tokenInApprovalType tokenOutApprovalType = Ok a ->
  exists ctx,
    swapAndAddPrepare trades options position = Ok ctx
    /\ swapAndAddCallParameters trades options position addLiquidityOptions
         tokenInApprovalType tokenOutApprovalType
       = Ok {| calldata := nth_error (saa_calldatas a) 0;
               value := toString (saa_value a) |}
    /\ let es := ctx_swaps ctx in
       let nativeIn := isNative (currency (inputAmount (sampleTrade es))) in
       let nativeOut := isNative (currency (outputAmount (sampleTrade es))) in
       let remaining :=
         quotient (ctx_positionAmountOut ctx) - quotient (quoteAmountOut es) in
       (nativeIn = true ->
        saa_value a
        = quotient (totalAmountIn es) + quotient (ctx_positionAmountIn ctx))
       /\ (nativeIn = false -> nativeOut = true ->
           saa_value a = remaining
           /\ (remaining < 0 ->
               saa_value a < 0
               /\ Forall (fun c => isPullOrWrap c = true ->
                                   c = encodePull (ctx_tokenIn ctx)
                                         (quotient (ctx_positionAmountIn ctx)))
                    (saa_calldatas a)))
       /\ (nativeIn = false -> nativeOut = false -> saa_value a = 0).
Proof.
  intros Ha. pose proof Ha as Hinv. apply swapAndAddAssemble_inv in Hinv.
  destruct Hinv as [ctx [Hctx [Hv [_ Hl]]]].
  exists ctx. split; [exact Hctx |]. split.
  { unfold swapAndAddCallParameters. rewrite Ha. reflexivity. }
  destruct (swapAndAddPrepare_Ok _ _ _ _ Hctx) as [Hes [Hpermit Hrem]].
  destruct (swapAndAddPrepare_inv _ _ _ _ Hctx)
    as [w [q [_ [_ [_ [_ [Hpos _]]]]]]].
  pose proof Hes as Hacc. apply encodeSwaps_accepted in Hacc.
  destruct Hacc as [legs [permit [encoded Hacc]]].
  cbv zeta. unfold swapAndAddValue in Hv.
  rewrite (acc_inputIsNative Hacc), (acc_outputIsNative Hacc) in Hv.
  split; [| split].
  - intros Hin. rewrite Hin in Hv.
    apply bind_Ok in Hv. destruct Hv as [swapped [Hs Hv]].
    apply bind_Ok in Hv. destruct Hv as [deposited [Hd Hv]].
    apply bind_Ok in Hv. destruct Hv as [total [Ht Hv]].
    injection Hv as <-.
    apply amount_wrapped_Ok in Hs. destruct Hs as [ws [_ ->]].
    apply amount_wrapped_Ok in Hd. destruct Hd as [wd [_ ->]].
    apply add_Ok in Ht. destruct Ht as [_ [_ ->]]. reflexivity.
  - intros Hin Hout. rewrite Hin, Hout in Hv. injection Hv as <-.
    split; [exact Hrem |]. intros Hneg. split; [rewrite Hrem; exact Hneg |].
    rewrite Hl. rewrite !Forall_app.
    pose proof (Accepted_calls _ _ _ _ _ _ _ Hacc) as Hcalls.
    split; [| split; [| split]].
    + eapply Forall_impl; [| exact Hcalls]. intros c Hc Hp.
      destruct c; simpl in *; discriminate.
    + eapply Forall_impl; [| exact Hpermit]. intros c Hc Hp.
      destruct c; simpl in *; discriminate.
    + unfold pullRemainingOutput, greaterThan. cbn [quotient fromRawAmount].
      rewrite (proj2 (Z.ltb_ge 0 _)); [constructor | lia].
    + unfold depositCalls. rewrite (acc_inputIsNative Hacc), Hin.
      destruct (negb (ApprovalTypes_eqb tokenInApprovalType NOT_REQUIRED)),
        (negb (ApprovalTypes_eqb tokenOutApprovalType NOT_REQUIRED)),
        (outputIsNative (ctx_swaps ctx));
        repeat constructor; intros Hp; try reflexivity; discriminate Hp.
  - intros Hin Hout. rewrite Hin, Hout in Hv. injection Hv as <-.
    reflexivity.
Qed.

(** *** The output permit *)

(** X10.  In a swap-and-add with an output permit, a native output currency
    makes the method fail with NON_TOKEN_PERMIT_OUTPUT once [encodeSwaps]
    has returned; when the method returns, the output currency is a token
    and the permit call for it stands right after the calls of
    [encodeSwaps]. *)
Theorem output_permit (trades : AnyTradeType) (options : SwapAndAddOptions)
    (position : Position)
    (addLiquidityOptions : CondensedAddLiquidityOptions)
    (tokenInApprovalType tokenOutApprovalType : ApprovalTypes)
    (es : EncodedSwaps) (p : PermitOptions) :
  encodeSwaps trades options true = Ok es ->
  outputTokenPermit options = Some p ->
  (isNative (currency (outputAmount (sampleTrade es))) = true ->
   swapAndAddCallParameters trades options position addLiquidityOptions
     tokenInApprovalType tokenOutApprovalType = Err NON_TOKEN_PERMIT_OUTPUT)
  /\ (forall a,
         swapAndAddAssemble trades options position addLiquidityOptions
           tokenInApprovalType tokenOutApprovalType = Ok a ->
         isNative (currency (outputAmount (sampleTrade es))) = false
         /\ exists rest,
              saa_calldatas a
              = calldatas es
                ++ encodePermit (currency (outputAmount (sampleTrade es))) p
                   :: rest).
Proof.
  intros Hes Hp. pose proof Hes as Hacc. apply encodeSwaps_accepted in Hacc.
  destruct Hacc as [legs [permit [encoded Hacc]]].
  destruct (Accepted_figures _ _ _ _ _ _ _ Hacc)
    as [maxIns [minOuts [_ [_ [_ [_ Hquote]]]]]].
  split.
  - intros Hnative.
    unfold swapAndAddCallParameters, swapAndAddAssemble, swapAndAddPrepare.
    rewrite Hes. cbn [bind]. rewrite Hp, Hquote.
    cbn [currency fromRawAmount]. unfold isToken. rewrite Hnative.
    reflexivity.
  - intros a Ha. apply swapAndAddAssemble_inv in Ha.
    destruct Ha as [ctx [Hctx [_ [_ Hl]]]].
    destruct (swapAndAddPrepare_inv _ _ _ _ Hctx)
      as [w [q [Hes' [Hpermit _]]]].
    rewrite Hes in Hes'. injection Hes' as Hes'. rewrite <- Hes' in *.
    rewrite Hp, Hquote in Hpermit. cbn [currency fromRawAmount] in Hpermit.
    destruct Hpermit as [Htoken Hperm]. split.
    + unfold isToken in Htoken.
      destruct (isNative (currency (outputAmount (sampleTrade es))));
        [discriminate Htoken | reflexivity].
    + rewrite Hl, Hperm. eexists. reflexivity.
Qed.

(** *** The aggregated slippage check *)

Lemma Forall2_right_In {A B : Type} (R : A -> B -> Prop) (P : B -> Prop)
    (l : list A) (l' : list B) :
  (forall a b, In a l -> R a b -> P b) -> Forall2 R l l' -> Forall P l'.
Proof.
  intros HRP H. induction H as [| a b l l' Hab _ IH]; constructor.
  - apply (HRP a b); [left; reflexivity | exact Hab].
  - apply IH. intros a' b' Ha'. apply HRP. right. exact Ha'.
Qed.

Lemma encodeV2Swap_minimumOut (trade : ProtocolTrade) (options : SwapOptions)
    (custody check : bool) (c : Call) :
  encodeV2Swap trade options custody check = Ok c ->
  tradeType trade = EXACT_INPUT ->
  exists minOut,
    trade_minimumAmountOut trade (slippageTolerance options) = Ok minOut
    /\ minimumOutArg c
       = Some (if check then ArgNumber 0
               else ArgString (toHex (quotient minOut))).
Proof.
  unfold encodeV2Swap. intros H Htt.
  apply bind_Ok in H. destruct H as [maxIn [_ H]].
  apply bind_Ok in H. destruct H as [minOut [Hm H]].
  apply bind_Ok in H. destruct H as [to [_ H]].
  exists minOut. split; [exact Hm |]. rewrite Htt in H.
  destruct (isNative (currency (inputAmount trade))),
    (isNative (currency (outputAmount trade)));
    injection H as <-; reflexivity.
Qed.

(** X11.  When the aggregated slippage check is in effect, every swap call
    of [encodeSwaps] has the number zero as its minimum output, the router
    has custody, and in the swap-only flow the call list holds the unwrap
    or sweep for the sum of the legs' minimum outputs whenever the list is
    assembled.  When it is not in effect and the trade type is EXACT_INPUT,
    every swap call carries the minimum output of one of the legs. *)
Theorem aggregated_slippage_check (trades : AnyTradeType)
    (options : SwapOptions) (isSwapAndAdd : bool) (es : EncodedSwaps)
    (legs : list ProtocolTrade) :
  encodeSwaps trades options isSwapAndAdd = Ok es ->
  normalize trades = Ok legs ->
  (performAggregatedSlippageCheck (sampleTrade es) legs = true ->
   routerMustCustody es = true
   /\ Forall (fun c => isSwapCall c = true ->
                       minimumOutArg c = Some (ArgNumber 0)) (calldatas es)
   /\ (isSwapAndAdd = false ->
       forall assembled,
         swapCalldatas trades options es = Ok assembled ->
         exists minOuts,
           mapM (fun leg =>
                   trade_minimumAmountOut leg (slippageTolerance options))
             legs = Ok minOuts
           /\ In (match currency (outputAmount (sampleTrade es)) with
                  | NativeCurrency _ =>
                      encodeUnwrapWETH9 (sumOver quotient minOuts)
                        (recipient options) (fee options)
                  | TokenCurrency t =>
                      encodeSweepToken (Some t) (sumOver quotient minOuts)
                        (recipient options) (fee options)
                  end) assembled))
  /\ (performAggregatedSlippageCheck (sampleTrade es) legs = false ->
      tradeType (sampleTrade es) = EXACT_INPUT ->
      Forall (fun c =>
                isSwapCall c = true ->
                exists leg minOut,
                  In leg legs
                  /\ trade_minimumAmountOut leg (slippageTolerance options)
                     = Ok minOut
                  /\ minimumOutArg c
                     = Some (ArgString (toHex (quotient minOut))))
        (calldatas es)).
Proof.
  intros Hes Hn. apply encodeSwaps_accepted in Hes.
  destruct Hes as [legs' [permit [encoded Hacc]]].
  pose proof (acc_normalize Hacc) as Hn'. rewrite Hn in Hn'.
  injection Hn' as <-.
  pose proof (Accepted_homogeneous _ _ _ _ _ _ _ Hacc) as Hhom.
  rewrite Forall_forall in Hhom.
  pose proof (encodeTrades_Ok _ _ _ _ _ (acc_encoded Hacc)) as Hcalls.
  pose proof (acc_permit Hacc) as Hp.
  assert (Hpermit : Forall (fun c => isSwapCall c = false) permit).
  { destruct (inputTokenPermit options); [destruct Hp as [_ ->] | rewrite Hp];
      repeat constructor. }
  assert (Hlegs : forall P : Call -> Prop,
             (forall leg c,
                 In leg legs ->
                 encodeV2Swap leg options (routerMustCustody es)
                   (performAggregatedSlippageCheck (sampleTrade es) legs)
                 = Ok c -> P c) ->
             Forall (fun c => isSwapCall c = true -> P c) (calldatas es)).
  { intros P HP. rewrite (acc_calldatas Hacc). apply Forall_app. split.
    - eapply Forall_impl; [| exact Hpermit]. simpl. intros c Hc Hs.
      rewrite Hc in Hs. discriminate Hs.
    - eapply Forall2_right_In; [| exact Hcalls]. simpl.
      intros leg c Hl Hc _. apply filter_In in Hl.
      apply (HP leg c); tauto. }
  split.
  - intros Hcheck. split; [| split].
    + rewrite (acc_custody Hacc), Hcheck. rewrite orb_true_r. reflexivity.
    + apply Hlegs. intros leg c Hleg Hc.
      destruct (Hhom leg Hleg) as [_ [_ Htt]].
      pose proof Hcheck as Hexact.
      unfold performAggregatedSlippageCheck in Hexact.
      apply andb_true_iff in Hexact. destruct Hexact as [Hexact _].
      apply TradeType_eqb_eq in Hexact. rewrite Hexact in Htt.
      destruct (encodeV2Swap_minimumOut _ _ _ _ _ Hc Htt) as [m [_ Hm]].
      rewrite Hcheck in Hm. exact Hm.
    + intros -> assembled Hl.
      destruct (Accepted_figures _ _ _ _ _ _ _ Hacc)
        as [maxIns [minOuts [_ [Hmo [_ [Hmin _]]]]]].
      rewrite (swapCalldatas_Accepted _ _ _ _ _ _ Hacc) in Hl.
      injection Hl as <-.
      exists minOuts. split; [exact Hmo |].
      assert (Hcust : routerMustCustody es = true).
      { rewrite (acc_custody Hacc), Hcheck. rewrite orb_true_r. reflexivity. }
      unfold settlement. rewrite Hcust, Hmin. cbn [quotient fromRawAmount].
      apply in_or_app. right. apply in_or_app. left. left. reflexivity.
  - intros Hcheck Hexact. apply Hlegs. intros leg c Hleg Hc.
    destruct (Hhom leg Hleg) as [_ [_ Htt]]. rewrite Hexact in Htt.
    destruct (encodeV2Swap_minimumOut _ _ _ _ _ Hc Htt) as [m [Hmo Hm]].
    exists leg, m. rewrite Hcheck in Hm. auto.
Qed.

(** *** The shape of the input *)

(** X12.  A trade object passed on its own and the array of that one trade
    object give the same result in both public methods. *)
Theorem single_as_array (trade : ProtocolTrade) (options : SwapOptions)
    (addOptions : SwapAndAddOptions) (position : Position)
    (addLiquidityOptions : CondensedAddLiquidityOptions)
    (tokenInApprovalType tokenOutApprovalType : ApprovalTypes) :
  swapCallParameters (Single trade) options
  = swapCallParameters (TradeArray [trade]) options
  /\ swapAndAddCallParameters (Single trade) addOptions position
       addLiquidityOptions tokenInApprovalType tokenOutApprovalType
     = swapAndAddCallParameters (TradeArray [trade]) addOptions position
         addLiquidityOptions tokenInApprovalType tokenOutApprovalType.
Proof.
  split; [| reflexivity].
  unfold swapCallParameters.
  change (encodeSwaps (TradeArray [trade]) options false)
    with (encodeSwaps (Single trade) options false).
  destruct (encodeSwaps (Single trade) options false) as [es | e];
    [| reflexivity].
  cbn [bind]. unfold swapCalldatas. cbn [riskOfPartialFill existsb].
  rewrite orb_false_r. reflexivity.
Qed.

Lemma nth_error_app_head {A : Type} (l l1 l2 : list A) :
  l <> [] -> nth_error (l ++ l1) 0 = nth_error (l ++ l2) 0.
Proof.
  destruct l as [| a l]; [intros H; contradiction H; reflexivity |].
  reflexivity.
Qed.

(** X13.  An aggregate trade and the array of the V2 trade objects it is
    unbundled into give the same result in both public methods.  In the
    swap-only flow the two call lists can differ by the refund, which is
    assessed on the aggregate for the one and on the V2 trade objects for
    the other, but the refund is never the first call, and the first call
    is all that is returned. *)
Theorem aggregate_as_array (t : Trade) (legs : list ProtocolTrade)
    (options : SwapOptions) (addOptions : SwapAndAddOptions)
    (position : Position)
    (addLiquidityOptions : CondensedAddLiquidityOptions)
    (tokenInApprovalType tokenOutApprovalType : ApprovalTypes) :
  normalize (Aggregate t) = Ok legs ->
  riskOfPartialFill (TradeArray legs) = false
  /\ swapCallParameters (TradeArray legs) options
     = swapCallParameters (Aggregate t) options
  /\ swapAndAddCallParameters (TradeArray legs) addOptions position
       addLiquidityOptions tokenInApprovalType tokenOutApprovalType
     = swapAndAddCallParameters (Aggregate t) addOptions position
         addLiquidityOptions tokenInApprovalType tokenOutApprovalType.
Proof.
  intros Hn.
  assert (He : forall o b,
             encodeSwaps (TradeArray legs) o b = encodeSwaps (Aggregate t) o b).
  { intros o b. unfold encodeSwaps. rewrite Hn. reflexivity. }
  pose proof Hn as Hv2. simpl in Hv2. apply unbundle_Ok in Hv2.
  destruct Hv2 as [_ [_ Hv2]].
  split; [| split].
  - simpl. apply not_true_iff_false. intros Hrisk.
    apply existsb_exists in Hrisk. destruct Hrisk as [leg [Hin Hrisk]].
    rewrite Forall_forall in Hv2. unfold v3TradeWithHighPriceImpact in Hrisk.
    rewrite (Hv2 leg Hin) in Hrisk. discriminate Hrisk.
  - unfold swapCallParameters. rewrite He.
    destruct (encodeSwaps (Aggregate t) options false) as [es | e] eqn:Hes;
      [| reflexivity].
    cbn [bind].
    pose proof Hes as Hacc. apply encodeSwaps_accepted in Hacc.
    destruct Hacc as [legs' [permit [encoded Hacc]]].
    pose proof (acc_normalize Hacc) as Hn'. rewrite Hn in Hn'.
    injection Hn' as <-.
    pose proof Hes as Hacc'. rewrite <- He in Hacc'.
    apply encodeSwaps_accepted in Hacc'.
    destruct Hacc' as [legs' [permit' [encoded' Hacc']]].
    rewrite (swapCalldatas_Accepted _ _ _ _ _ _ Hacc).
    rewrite (swapCalldatas_Accepted _ _ _ _ _ _ Hacc').
    cbn [bind]. f_equal. f_equal.
    apply nth_error_app_head.
    rewrite (acc_calldatas Hacc).
    pose proof (encodeTrades_length _ _ _ _ _ (acc_encoded Hacc)) as Hlen.
    rewrite (filter_all _ _ Hv2) in Hlen.
    destruct (Accepted_legs _ _ _ _ _ _ _ Hacc) as [rest Hlegs].
    rewrite Hlegs in Hlen.
    destruct encoded; [discriminate Hlen |].
    destruct permit; discriminate.
  - unfold swapAndAddCallParameters, swapAndAddAssemble, swapAndAddPrepare.
    rewrite He. reflexivity.
Qed.


End Router.

(** ** Runs of the rest of the router *)

Lemma empty_input_TypeError_witness :
  encodeSwaps (sdk := Sample.sdk) (TradeArray []) Sample.options false
  = Err TypeError
  /\ swapCallParameters (sdk := Sample.sdk) (TradeArray []) Sample.options
     = Err TypeError
  /\ swapAndAddCallParameters (sdk := Sample.sdk) (TradeArray [])
       Sample.addOptions Sample.position Sample.mintOptions MAX
       NOT_REQUIRED = Err TypeError.
Proof.
  destruct (empty_input_TypeError (sdk := Sample.sdk) (TradeArray [])
              Sample.options Sample.addOptions Sample.position
              Sample.mintOptions MAX NOT_REQUIRED (or_introl eq_refl))
    as [He [Hs Ha]].
  split; [exact (He false) | split; [exact Hs | exact Ha]].
Defined.

Lemma share_singleton {A B : Type} (f : A -> B) (a : A) : share f [a].
Proof.
  intros x y [<- | []] [<- | []]. reflexivity.
Defined.

Lemma native_input_permit_rejected_witness :
  normalize (sdk := Sample.sdk) (Single Sample.v2EtherToDai)
  = Ok [Sample.v2EtherToDai]
  /\ inputTokenPermit Sample.optionsWithPermit = Some Sample.permit
  /\ isNative (inputCurrency Sample.v2EtherToDai) = true
  /\ encodeSwaps (sdk := Sample.sdk) (Single Sample.v2EtherToDai)
       Sample.optionsWithPermit false = Err NON_TOKEN_PERMIT.
Proof.
  split; [reflexivity |]. split; [reflexivity |]. split; [reflexivity |].
  exact (native_input_permit_rejected (sdk := Sample.sdk)
           (Single Sample.v2EtherToDai) Sample.optionsWithPermit false
           [Sample.v2EtherToDai] Sample.permit Sample.v2EtherToDai eq_refl
           (share_singleton _ _) (share_singleton _ _) (share_singleton _ _)
           eq_refl (or_introl eq_refl) eq_refl).
Defined.

Lemma swap_settlement_witness :
  exists es assembled,
    encodeSwaps (sdk := Sample.sdk) (Single Sample.v2DaiToEther) Sample.options
      false = Ok es
    /\ swapCalldatas (sdk := Sample.sdk) (Single Sample.v2DaiToEther)
         Sample.options es = Ok assembled
    /\ routerMustCustody es = true
    /\ List.length (filter isSettleCall assembled) = 1%nat
    /\ List.length assembled = 2%nat.
Proof.
  eexists. eexists.
  split; [vm_compute; reflexivity |].
  split; [vm_compute; reflexivity |].
  split; [reflexivity |].
  destruct (swap_settlement (sdk := Sample.sdk) (Single Sample.v2DaiToEther)
              Sample.options _ _ eq_refl eq_refl)
    as [legs [minOuts [_ [_ [_ [Hs _]]]]]].
  split; [exact Hs | reflexivity].
Defined.

Lemma returned_calldata_witness :
  exists mp,
    swapCallParameters (sdk := Sample.sdk) (Single Sample.v3DaiToUsdc)
      Sample.options = Ok mp
    /\ calldata mp = None
    /\ exists es legs,
         encodeSwaps (sdk := Sample.sdk) (Single Sample.v3DaiToUsdc)
           Sample.options false = Ok es
         /\ normalize (sdk := Sample.sdk) (Single Sample.v3DaiToUsdc) = Ok legs
         /\ (calldata mp = None
             <-> inputTokenPermit Sample.options = None
                 /\ filter isV2Trade legs = []
                 /\ routerMustCustody es = false
                 /\ refundDue (Single Sample.v3DaiToUsdc) es = false).
Proof.
  eexists. split; [vm_compute; reflexivity |].
  split; [reflexivity |].
  destruct (returned_calldata (sdk := Sample.sdk) (Single Sample.v3DaiToUsdc)
              Sample.options _ eq_refl)
    as [es [legs [He [Hn [_ [_ [_ Hiff]]]]]]].
  exists es, legs. split; [exact He |]. split; [exact Hn | exact Hiff].
Defined.

Lemma swap_recipients_witness :
  exists es c,
    encodeSwaps (sdk := Sample.sdk) (Single Sample.v2DaiToUsdc) Sample.options
      false = Ok es
    /\ In c (calldatas es)
    /\ isSwapCall c = true
    /\ routerMustCustody es = false
    /\ recipientArg c = Some (ArgString (MSG_SENDER (Sdk := Sample.sdk))).
Proof.
  eexists. eexists.
  split; [vm_compute; reflexivity |].
  split; [left; reflexivity |].
  split; [reflexivity |]. split; [reflexivity |].
  apply (swap_recipients (sdk := Sample.sdk) (Single Sample.v2DaiToUsdc)
           Sample.options false _ _ eq_refl (or_introl eq_refl) eq_refl);
    reflexivity.
Defined.

Lemma swapAndAdd_deposit_witness :
  exists a,
    swapAndAddAssemble (sdk := Sample.sdk) (Single Sample.v2DaiToUsdc)
      Sample.addOptions Sample.position Sample.mintOptions MAX NOT_REQUIRED
    = Ok a
    /\ nth_error (saa_calldatas a) 0 <> None
    /\ List.length (saa_calldatas a) = 6%nat
    /\ nth_error (saa_calldatas a) 4
       = Some (encodeSweepToken (Some Sample.DAI) 0 None None)
    /\ nth_error (saa_calldatas a) 5
       = Some (encodeSweepToken (Some Sample.USDC) 0 None None).
Proof.
  eexists. split; [vm_compute; reflexivity |].
  split; [| split; [reflexivity | split; reflexivity]].
  destruct (swapAndAdd_deposit (sdk := Sample.sdk) (Single Sample.v2DaiToUsdc)
              Sample.addOptions Sample.position Sample.mintOptions MAX
              NOT_REQUIRED _ eq_refl)
    as [ctx [legs [minOuts [before H]]]].
  exact (proj2 (proj2 (proj2 (proj2 (proj2 H))))).
Defined.

Lemma swapAndAdd_position_witness :
  exists ctx,
    swapAndAddPrepare (sdk := Sample.sdk) (Single Sample.v2DaiToUsdc)
      Sample.addOptions Sample.position = Ok ctx
    /\ ctx_zeroForOne ctx = true
    /\ wrapped (sdk := Sample.sdk)
         (currency (outputAmount (sampleTrade (ctx_swaps ctx))))
       = Ok (if ctx_zeroForOne ctx then token1 (pool Sample.position)
             else token0 (pool Sample.position)).
Proof.
  eexists. split; [vm_compute; reflexivity |].
  split; [reflexivity |].
  apply (swapAndAdd_position (sdk := Sample.sdk) (Single Sample.v2DaiToUsdc)
           Sample.addOptions Sample.position _ eq_refl).
Defined.

Lemma swapAndAdd_value_witness :
  exists a,
    swapAndAddAssemble (sdk := Sample.sdk) (Single Sample.v2DaiToEther)
      Sample.addOptions Sample.positionDaiWeth Sample.mintOptions MAX
      NOT_REQUIRED = Ok a
    /\ saa_value a = -600
    /\ exists ctx,
         swapAndAddPrepare (sdk := Sample.sdk) (Single Sample.v2DaiToEther)
           Sample.addOptions Sample.positionDaiWeth = Ok ctx
         /\ swapAndAddCallParameters (sdk := Sample.sdk)
              (Single Sample.v2DaiToEther) Sample.addOptions
              Sample.positionDaiWeth Sample.mintOptions MAX NOT_REQUIRED
            = Ok {| calldata := nth_error (saa_calldatas a) 0;
                    value := toString (Sdk := Sample.sdk) (saa_value a) |}.
Proof.
  eexists. split; [vm_compute; reflexivity |].
  split; [reflexivity |].
  destruct (swapAndAdd_value (sdk := Sample.sdk) (Single Sample.v2DaiToEther)
              Sample.addOptions Sample.positionDaiWeth Sample.mintOptions
              MAX NOT_REQUIRED _ eq_refl)
    as [ctx [Hctx [Hmp _]]].
  exists ctx. split; [exact Hctx | exact Hmp].
Defined.

Lemma output_permit_witness :
  exists es,
    encodeSwaps (sdk := Sample.sdk) (Single Sample.v2DaiToEther)
      Sample.addOptionsWithPermit true = Ok es
    /\ outputTokenPermit Sample.addOptionsWithPermit = Some Sample.permit
    /\ isNative (currency (outputAmount (sampleTrade es))) = true
    /\ swapAndAddCallParameters (sdk := Sample.sdk)
         (Single Sample.v2DaiToEther) Sample.addOptionsWithPermit
         Sample.positionDaiWeth Sample.mintOptions MAX NOT_REQUIRED
       = Err NON_TOKEN_PERMIT_OUTPUT.
Proof.
  eexists. split; [vm_compute; reflexivity |].
  split; [reflexivity |]. split; [reflexivity |].
  apply (proj1 (output_permit (sdk := Sample.sdk) (Single Sample.v2DaiToEther)
                  Sample.addOptionsWithPermit Sample.positionDaiWeth
                  Sample.mintOptions MAX NOT_REQUIRED _ Sample.permit
                  eq_refl eq_refl)).
  reflexivity.
Defined.

Lemma aggregated_slippage_check_witness :
  exists es,
    encodeSwaps (sdk := Sample.sdk)
      (TradeArray [Sample.v2DaiToUsdc; Sample.v2DaiToUsdc; Sample.v2DaiToUsdc])
      Sample.options false = Ok es
    /\ routerMustCustody es = true
    /\ Forall (fun c => isSwapCall c = true ->
                        minimumOutArg c = Some (ArgNumber 0)) (calldatas es).
Proof.
  eexists. split; [vm_compute; reflexivity |].
  destruct (proj1 (aggregated_slippage_check (sdk := Sample.sdk)
                     (TradeArray [Sample.v2DaiToUsdc; Sample.v2DaiToUsdc;
                                  Sample.v2DaiToUsdc])
                     Sample.options false _ _ eq_refl eq_refl) eq_refl)
    as [Hc [Hz _]].
  split; [exact Hc | exact Hz].
Defined.

Lemma aggregate_as_array_witness :
  exists legs,
    normalize (sdk := Sample.sdk) (Aggregate Sample.aggregateEtherToDai)
    = Ok legs
    /\ riskOfPartialFill (Aggregate Sample.aggregateEtherToDai) = true
    /\ riskOfPartialFill (TradeArray legs) = false
    /\ swapCallParameters (sdk := Sample.sdk) (TradeArray legs) Sample.options
       = swapCallParameters (sdk := Sample.sdk)
           (Aggregate Sample.aggregateEtherToDai) Sample.options.
Proof.
  eexists. split; [vm_compute; reflexivity |].
  split; [reflexivity |].
  destruct (aggregate_as_array (sdk := Sample.sdk) Sample.aggregateEtherToDai
              _ Sample.options Sample.addOptions Sample.position
              Sample.mintOptions MAX NOT_REQUIRED eq_refl)
    as [Hr [Hs _]].
  split; [exact Hr | exact Hs].
Defined.

